(** * LM-backend: the YouTube quiz generator of [app.py]

    A shallow embedding of the request pipeline of [app.py] (URL parsing,
    metadata lookup, the transcript / captions / description fallback chain,
    the caption normalizer and the parsing of the generative reply), with the
    properties of its specification stated and settled against it.

    Python strings are modelled by [string]: sequences of characters whose
    code points lie below 256.  Remote services and library functions that
    are not part of the repository are parameters of the embedding. *)

From Equations Require Import Equations.
From Stdlib Require Import String Ascii List ZArith Lia Bool Arith.
Import ListNotations.
Local Open Scope string_scope.
Set Warnings "-register-all".

(* ===================================================================== *)
(** * Python string primitives used by [app.py] *)
(* ===================================================================== *)

Module Py.

(** [str.isspace] on one character, for code points below 256:
    TAB..CR, FS..US, SPACE, NEL and NBSP. *)
Definition isspace (c : ascii) : bool :=
  let n := nat_of_ascii c in
  (((9 <=? n) && (n <=? 13)) || ((28 <=? n) && (n <=? 32))
   || (n =? 133) || (n =? 160))%nat.

(** [str.isdigit] on one character, for code points below 256: the ASCII
    digits and the superscripts two, three and one. *)
Definition isdigit_char (c : ascii) : bool :=
  let n := nat_of_ascii c in
  (((48 <=? n) && (n <=? 57)) || (n =? 178) || (n =? 179) || (n =? 185))%nat.

Fixpoint all_chars (p : ascii -> bool) (s : string) : bool :=
  match s with
  | EmptyString => true
  | String c s' => p c && all_chars p s'
  end.

(** [s.isdigit()]: non-empty and made of digits only. *)
Definition isdigit (s : string) : bool :=
  match s with
  | EmptyString => false
  | String _ _ => all_chars isdigit_char s
  end.

(** Truth value of a string: [not s] holds of the empty string only. *)
Definition truthy (s : string) : bool :=
  match s with
  | EmptyString => false
  | String _ _ => true
  end.

Fixpoint lstrip (s : string) : string :=
  match s with
  | EmptyString => EmptyString
  | String c s' => if isspace c then lstrip s' else s
  end.

Fixpoint rstrip (s : string) : string :=
  match s with
  | EmptyString => EmptyString
  | String c s' =>
      match rstrip s' with
      | EmptyString => if isspace c then EmptyString else String c EmptyString
      | r => String c r
      end
  end.

(** [s.strip()] *)
Definition strip (s : string) : string := rstrip (lstrip s).

(** [sub in s] *)
Fixpoint contains (sub s : string) : bool :=
  prefix sub s ||
  match s with
  | EmptyString => false
  | String _ s' => contains sub s'
  end.

(** [s.split(sep)] for a one-character separator: never the empty list. *)
Fixpoint split (sep : ascii) (s : string) : list string :=
  match s with
  | EmptyString => [EmptyString]
  | String c s' =>
      if Ascii.eqb c sep then EmptyString :: split sep s'
      else match split sep s' with
           | [] => [String c EmptyString]
           | h :: t => String c h :: t
           end
  end.

(** [sep.join(parts)] *)
Definition join (sep : string) (parts : list string) : string :=
  String.concat sep parts.

(** [parts[-1]] of a list produced by [split]. *)
Definition last_part (parts : list string) : string := last parts EmptyString.

(** [parts[0]] of a list produced by [split]. *)
Definition first_part (parts : list string) : string := hd EmptyString parts.

Fixpoint find_from (c : ascii) (s : string) (i : Z) : Z :=
  match s with
  | EmptyString => (-1)%Z
  | String a s' => if Ascii.eqb a c then i else find_from c s' (i + 1)%Z
  end.

(** [s.find(c)]: index of the first occurrence, [-1] when there is none. *)
Definition find (c : ascii) (s : string) : Z := find_from c s 0%Z.

Fixpoint rfind_from (c : ascii) (s : string) (i last : Z) : Z :=
  match s with
  | EmptyString => last
  | String a s' =>
      rfind_from c s' (i + 1)%Z (if Ascii.eqb a c then i else last)
  end.

(** [s.rfind(c)]: index of the last occurrence, [-1] when there is none. *)
Definition rfind (c : ascii) (s : string) : Z := rfind_from c s 0%Z (-1)%Z.

(** [s[start:stop]] with Python's treatment of negative and oversized
    bounds. *)
Definition slice (s : string) (start stop : Z) : string :=
  let len := Z.of_nat (String.length s) in
  let norm i := if (i <? 0)%Z then Z.max 0 (i + len) else Z.min i len in
  let lo := norm start in
  let hi := norm stop in
  substring (Z.to_nat lo) (Z.to_nat (hi - lo)) s.

End Py.

(* ===================================================================== *)
(** * Data model *)
(* ===================================================================== *)

(** Python exceptions that [app.py] tells apart in its [except] clauses,
    each with the text [str(e)] it is reported with.  [JSONDecodeError] is a
    subclass of [ValueError]; [OtherError] stands for every other subclass
    of [Exception].  An [HttpError] also carries the outcome of reading the
    reason out of its JSON content (lines 169-170 of [app.py]): the reason,
    or the exception that reading it raises. *)
Inductive exn : Type :=
| ValueError (msg : string)
| JSONDecodeError (msg : string)
| IndexError (msg : string)
| TranscriptsDisabled (msg : string)
| NoTranscriptFound (msg : string)
| HttpError (msg : string) (reason : string + exn)
| OtherError (msg : string).

(** [str(e)] *)
Definition str (e : exn) : string :=
  match e with
  | ValueError m | JSONDecodeError m | IndexError m | TranscriptsDisabled m
  | NoTranscriptFound m | HttpError m _ | OtherError m => m
  end.

(** [isinstance(e, ValueError)] *)
Definition is_ValueError (e : exn) : bool :=
  match e with
  | ValueError _ | JSONDecodeError _ => true
  | _ => false
  end.

(** Outcome of a call that may raise. *)
Inductive result (A : Type) : Type :=
| Ok (a : A)
| Raise (e : exn).
Arguments Ok {A} a.
Arguments Raise {A} e.

(** Values produced by [json.loads]. *)
Inductive json : Type :=
| JNull
| JBool (b : bool)
| JNumber (lexeme : string)
| JString (s : string)
| JArray (items : list json)
| JObject (members : list (string * json)).

(** One item of the [videos().list] response: its snippet. *)
Record Snippet := { title : string; description : string }.

(** One transcript track of the transcript provider. *)
Inductive Transcript : Type := mkTranscript {
  language_code : string;
  is_generated : bool;
  fetch : result (list string);              (* the 'text' of each part *)
  translate : string -> result Transcript    (* target language code *)
}.

(** One item of the [captions().list] response. *)
Record CaptionTrack := { id : string; language : string }.

(** The instruction sent to the generative service: the f-string template
    of [generate_quiz] or of [generate_quiz_from_description], determined by
    the three values it interpolates. *)
Inductive Prompt : Type :=
| TranscriptPrompt (transcript video_title : string) (num_questions : Z)
| DescriptionPrompt (description video_title : string) (num_questions : Z).

(** The reply object of the generative service; reading [.text] may raise. *)
Record GenResponse := { text : result string }.

(** Library functions used by [app.py] that are not part of the repository. *)
Record Library := {
  urlparse_query : string -> result string;        (* urlparse(url).query *)
  parse_qs : string -> list (string * list string);
  html_unescape : string -> string;
  json_loads : string -> result json
}.

(** Remote collaborators. *)
Record Services := {
  videos_list : string -> result (list Snippet);
  list_transcripts : string -> result (list Transcript);
  captions_list : string -> result (list CaptionTrack);
  captions_download : string -> result string;
  generate_content : Prompt -> result GenResponse
}.

(** The calls that [app.py] itself makes to its collaborators, in the order
    they are issued.  The requests that a track object makes when it is
    fetched or translated belong to [fetch] and [translate] and are not
    events of their own. *)
Inductive Event : Type :=
| VideosList (video_id : string)
| ListTranscripts (video_id : string)
| CaptionsList (video_id : string)
| CaptionsDownload (caption_id : string)
| GenerateContent (prompt : Prompt).

(** The dictionaries returned by the functions of [app.py]. *)
Inductive VideoInfo : Type :=
| VideoInfoError (message : string)
| VideoInfoSuccess (title description video_id : string).

Inductive TextResult : Type :=
| TextError (message : string)
| TextSuccess (text : string).

Inductive QuizResult : Type :=
| QuizError (message : string)
| QuizSuccess (quiz : json).

(** The JSON payloads of the [/generate-quiz] route. *)
Inductive Body : Type :=
| ErrorBody (message : string)
| QuizBody (video_title : string) (quiz : json) (content_source : string).

Definition Response : Type := (Body * Z)%type.

(** The request body after [data.get]: the URL (if any) and the question
    count after [int(...)]. *)
Record Request := { youtube_url : option string; num_questions : Z }.

(* ===================================================================== *)
(** * Computations that log their outbound calls *)
(* ===================================================================== *)

Definition M (A : Type) : Type := (A * list Event)%type.

Definition ret {A} (a : A) : M A := (a, []).

Definition bind {A B} (m : M A) (k : A -> M B) : M B :=
  let (a, t1) := m in
  let (b, t2) := k a in
  (b, (t1 ++ t2)%list).

Definition call {A} (ev : Event) (outcome : A) : M A := (outcome, [ev]).

Definition value {A} (m : M A) : A := fst m.
Definition trace {A} (m : M A) : list Event := snd m.

Notation "x <- m ;; k" := (bind m (fun x => k))
  (at level 61, m at next level, right associativity).

(* ===================================================================== *)
(** * The functions of [app.py] *)
(* ===================================================================== *)

Definition newline : ascii := ascii_of_nat 10.

(** [TranscriptList.find_transcript(language_codes)] of the transcript
    provider's client: for each requested code in turn, a manually created
    track with that code, else a generated one; [NoTranscriptFound] when no
    code matches. *)
Definition track_with (code : string) (generated : bool) (t : Transcript) : bool :=
  String.eqb (language_code t) code && Bool.eqb (is_generated t) generated.

Fixpoint find_transcript (transcript_list : list Transcript)
    (language_codes : list string) : result Transcript :=
  match language_codes with
  | [] => Raise (NoTranscriptFound "No transcripts were found for any of the requested language codes")
  | code :: codes =>
      match List.find (track_with code false) transcript_list with
      | Some t => Ok t
      | None =>
          match List.find (track_with code true) transcript_list with
          | Some t => Ok t
          | None => find_transcript transcript_list codes
          end
      end
  end.

(** [transcript_list[i]]: the [TranscriptList] of the transcript provider's
    client can be iterated and searched with [find_transcript], but it
    defines no indexing, so a subscript raises [TypeError] whatever the
    list holds. *)
Definition transcript_list_getitem (transcript_list : list Transcript)
    (i : nat) : result Transcript :=
  Raise (OtherError "'TranscriptList' object is not subscriptable").

(** How lines 86-98 of [get_video_transcript] leave the nested [try]
    blocks: with [transcript] bound, by the early [return], or by an
    exception that propagates to the outer handlers. *)
Inductive Selection : Type :=
| Selected (transcript : Transcript)
| EarlyReturn (r : TextResult)
| Propagates (e : exn).

Definition no_transcript_message : string :=
  "No transcript available for this video. Please choose a video with captions.".

Section App.

Variable lib : Library.
Variable svc : Services.

(** ** URL parser *)

Definition extract_video_id (youtube_url : string) : result string :=
  if Py.contains "youtu.be" youtube_url then
    Ok (Py.first_part (Py.split "?" (Py.last_part (Py.split "/" youtube_url))))
  else if Py.contains "youtube.com/watch" youtube_url then
    match urlparse_query lib youtube_url with
    | Raise e => Raise e
    | Ok query =>
        let query_params := parse_qs lib query in
        match List.find (fun kv => String.eqb (fst kv) "v") query_params with
        | Some (_, v :: _) => Ok v
        | Some (_, []) => Raise (IndexError "list index out of range")
        | None =>
            Raise (ValueError "Invalid YouTube URL: missing video ID parameter")
        end
    end
  else
    Raise (ValueError
             "Invalid YouTube URL format. Please use a standard YouTube URL").

(** ** Prerequisite: video metadata *)

Definition get_video_info (video_id : string) : M VideoInfo :=
  response <- call (VideosList video_id) (videos_list svc video_id) ;;
  ret match response with
      | Ok [] =>
          VideoInfoError "Video not found. Please check the URL and try again."
      | Ok (video_info :: _) =>
          VideoInfoSuccess (title video_info) (description video_info) video_id
      | Raise (HttpError _ _ as e) =>
          VideoInfoError ("YouTube API error: " ++ str e)
      | Raise e => VideoInfoError (str e)
      end.

(** ** Strategy 1: transcript provider *)

Definition pick_transcript (transcript_list : list Transcript) : Selection :=
  match find_transcript transcript_list ["en"] with
  | Ok transcript => Selected transcript
  | Raise _ =>
      match find_transcript transcript_list ["en-US"; "en-GB"] with
      | Ok transcript => Selected transcript
      | Raise _ =>
          match transcript_list_getitem transcript_list 0 with
          | Ok first =>
              match translate first "en" with
              | Ok transcript => Selected transcript
              | Raise (IndexError _) =>
                  EarlyReturn (TextError no_transcript_message)
              | Raise e => Propagates e
              end
          | Raise (IndexError _) =>
              EarlyReturn (TextError no_transcript_message)
          | Raise e => Propagates e
          end
      end
  end.

(** The two outer [except] clauses of [get_video_transcript]. *)
Definition transcript_handler (e : exn) : TextResult :=
  match e with
  | TranscriptsDisabled _ | NoTranscriptFound _ =>
      TextError no_transcript_message
  | _ => TextError ("Error retrieving transcript: " ++ str e)
  end.

Definition get_video_transcript (video_id : string) : M TextResult :=
  listed <- call (ListTranscripts video_id) (list_transcripts svc video_id) ;;
  ret match listed with
      | Raise e => transcript_handler e
      | Ok transcript_list =>
          match pick_transcript transcript_list with
          | EarlyReturn r => r
          | Propagates e => transcript_handler e
          | Selected transcript =>
              match fetch transcript with
              | Raise e => transcript_handler e
              | Ok transcript_data =>
                  TextSuccess (Py.join " " transcript_data)
              end
          end
      end.

(** ** Caption normalizer *)

(** The [while i < len(lines)] loop of [clean_srt_to_plain_text]; the
    accumulator is the list [plain_text]. *)
Equations? clean_loop (lines : list string) (i : nat) (plain_text : list string)
  : list string by wf (List.length lines - i) lt :=
  clean_loop lines i plain_text with lt_dec i (List.length lines) => {
    | right _ := plain_text
    | left _ with Py.strip (nth i lines EmptyString) => {
        | line with negb (Py.truthy line) => {
            | true := clean_loop lines (i + 1) plain_text
            | false with Py.isdigit line => {
                | true := clean_loop lines (i + 1) plain_text
                | false with Py.contains "-->" line => {
                    | true := clean_loop lines (i + 1) plain_text
                    | false with Py.truthy line => {
                        | true :=
                            clean_loop lines (i + 1)
                              (plain_text ++ [html_unescape lib line])%list
                        | false := clean_loop lines (i + 1) plain_text
                      }
                  }
              }
          }
      }
  }.
Proof. all: lia. Qed.

Definition clean_srt_to_plain_text (srt_content : string) : string :=
  let lines := Py.split newline srt_content in
  Py.join " " (clean_loop lines 0 []).

(** ** Strategy 2: captions through the Data API *)

Definition english_codes : list string := ["en"; "en-US"; "en-GB"].

(** The [for track in caption_tracks] loop with its [break]. *)
Fixpoint first_english_caption (caption_tracks : list CaptionTrack)
  : option string :=
  match caption_tracks with
  | [] => None
  | track :: rest =>
      if existsb (String.eqb (language track)) english_codes
      then Some (id track)
      else first_english_caption rest
  end.

(** Truth value of [caption_id], which is [None] or a string. *)
Definition caption_id_truthy (caption_id : option string) : bool :=
  match caption_id with
  | None => false
  | Some s => Py.truthy s
  end.

(** The [except] clauses of [get_captions_from_youtube_api]; an exception
    raised while the [HttpError] clause reads the reason leaves the
    function. *)
Definition captions_handler (e : exn) : result TextResult :=
  match e with
  | HttpError _ (inr raised) => Raise raised
  | HttpError _ (inl error_reason) =>
      if String.eqb error_reason "forbidden"
      then Ok (TextError
                 "Unable to access captions due to permission restrictions")
      else Ok (TextError ("YouTube API error: " ++ str e))
  | _ => Ok (TextError ("Error retrieving captions: " ++ str e))
  end.

Definition get_captions_from_youtube_api (video_id : string)
  : M (result TextResult) :=
  captions_response <-
    call (CaptionsList video_id) (captions_list svc video_id) ;;
  match captions_response with
  | Raise e => ret (captions_handler e)
  | Ok caption_tracks =>
      match caption_tracks with
      | [] => ret (Ok (TextError "No captions available for this video"))
      | first :: _ =>
          let caption_id := first_english_caption caption_tracks in
          let caption_id :=
            if caption_id_truthy caption_id then caption_id
            else Some (id first) in
          match caption_id with
          | Some cid =>
              if Py.truthy cid then
                caption_data <-
                  call (CaptionsDownload cid) (captions_download svc cid) ;;
                match caption_data with
                | Raise e => ret (captions_handler e)
                | Ok caption_text =>
                    ret (Ok (TextSuccess
                               (clean_srt_to_plain_text caption_text)))
                end
              else ret (Ok (TextError "No usable captions found"))
          | None => ret (Ok (TextError "No usable captions found"))
          end
      end
  end.

(** ** Quiz synthesizer *)

(** The body of the inner [try] of [generate_quiz] after [response.text]
    has been read (lines 253-262); [generate_quiz_from_description] repeats
    it verbatim (lines 310-319). *)
Definition parse_reply (response_text : string) : result QuizResult :=
  let start_idx := Py.find "[" response_text in
  let end_idx := (Py.rfind "]" response_text + 1)%Z in
  if negb (start_idx =? -1)%Z && negb (end_idx =? -1)%Z then
    let json_str := Py.slice response_text start_idx end_idx in
    match json_loads lib json_str with
    | Ok quiz_data => Ok (QuizSuccess quiz_data)
    | Raise e => Raise e
    end
  else Ok (QuizError "Invalid response format from Gemini API").

(** The inner and outer [except] clauses shared by both synthesizers. *)
Definition quiz_handler (e : exn) : QuizResult :=
  match e with
  | JSONDecodeError _ => QuizError "Failed to parse quiz data"
  | _ => QuizError (str e)
  end.

Definition synthesize (prompt : Prompt) : M QuizResult :=
  generated <- call (GenerateContent prompt) (generate_content svc prompt) ;;
  ret match generated with
      | Raise e => QuizError (str e)
      | Ok response =>
          match text response with
          | Raise e => quiz_handler e
          | Ok response_text =>
              match parse_reply response_text with
              | Ok quiz_result => quiz_result
              | Raise e => quiz_handler e
              end
          end
      end.

Definition generate_quiz (transcript video_title : string)
    (num_questions : Z) : M QuizResult :=
  synthesize (TranscriptPrompt transcript video_title num_questions).

Definition generate_quiz_from_description (description video_title : string)
    (num_questions : Z) : M QuizResult :=
  synthesize (DescriptionPrompt description video_title num_questions).

(** ** The [/generate-quiz] route *)

(** The two [except] clauses of [process_youtube_video]. *)
Definition request_handler (e : exn) : Response :=
  if is_ValueError e then (ErrorBody (str e), 400%Z)
  else (ErrorBody (str e), 500%Z).

Definition process_youtube_video (req : Request) : M Response :=
  match youtube_url req with
  | None => ret (ErrorBody "YouTube URL is required", 400%Z)
  | Some url =>
      if negb (Py.truthy url)
      then ret (ErrorBody "YouTube URL is required", 400%Z)
      else
        match extract_video_id url with
        | Raise e => ret (request_handler e)
        | Ok video_id =>
            video_info <- get_video_info video_id ;;
            match video_info with
            | VideoInfoError message => ret (ErrorBody message, 500%Z)
            | VideoInfoSuccess title description _ =>
                transcript_result <- get_video_transcript video_id ;;
                fallback <-
                  match transcript_result with
                  | TextError _ => get_captions_from_youtube_api video_id
                  | TextSuccess _ => ret (Ok transcript_result)
                  end ;;
                match fallback with
                | Raise e => ret (request_handler e)
                | Ok transcript_result =>
                    synthesized <-
                      match transcript_result with
                      | TextSuccess text =>
                          quiz_result <-
                            generate_quiz text title (num_questions req) ;;
                          ret (quiz_result, "transcript")
                      | TextError _ =>
                          quiz_result <-
                            generate_quiz_from_description
                              description title (num_questions req) ;;
                          ret (quiz_result, "description")
                      end ;;
                    let (quiz_result, content_source) := synthesized in
                    match quiz_result with
                    | QuizError message => ret (ErrorBody message, 500%Z)
                    | QuizSuccess quiz =>
                        ret (QuizBody title quiz content_source, 200%Z)
                    end
                end
            end
        end
  end.

End App.

(* ===================================================================== *)
(** * Reference instances of the library functions *)
(* ===================================================================== *)

(** Executable stand-ins for the Python library functions, used to run the
    embedding on concrete inputs.  The general theorems below hold for any
    [Library]; they do not depend on this module. *)
Module Ref.

Definition dquote : ascii := ascii_of_nat 34.
Definition backslash : ascii := ascii_of_nat 92.

Definition is_ascii_digit (c : ascii) : bool :=
  let n := nat_of_ascii c in ((48 <=? n) && (n <=? 57))%nat.

(** JSON whitespace: space, TAB, LF, CR. *)
Definition is_json_ws (c : ascii) : bool :=
  let n := nat_of_ascii c in
  ((n =? 32) || (n =? 9) || (n =? 10) || (n =? 13))%nat.

Fixpoint skip_ws (s : string) : string :=
  match s with
  | String c s' => if is_json_ws c then skip_ws s' else s
  | EmptyString => EmptyString
  end.

Fixpoint strip_prefix (p s : string) : option string :=
  match p, s with
  | EmptyString, _ => Some s
  | String a p', String b s' =>
      if Ascii.eqb a b then strip_prefix p' s' else None
  | String _ _, EmptyString => None
  end.

Fixpoint span (p : ascii -> bool) (s : string) : string * string :=
  match s with
  | String c s' =>
      if p c then let (a, b) := span p s' in (String c a, b)
      else (EmptyString, s)
  | EmptyString => (EmptyString, EmptyString)
  end.

(** An optional group [mark digit+] of the number grammar; [signed] allows
    a sign after the mark (exponents). *)
Definition scan_group (marks : list ascii) (signed : bool) (s : string)
  : string * string :=
  match s with
  | String m s1 =>
      if existsb (Ascii.eqb m) marks then
        let (sign, s2) :=
          match s1 with
          | String g r =>
              if signed && (Ascii.eqb g "+" || Ascii.eqb g "-")
              then (String g EmptyString, r) else (EmptyString, s1)
          | EmptyString => (EmptyString, s1)
          end in
        let (ds, s3) := span is_ascii_digit s2 in
        match ds with
        | EmptyString => (EmptyString, s)
        | _ => (String m (sign ++ ds), s3)
        end
      else (EmptyString, s)
  | EmptyString => (EmptyString, s)
  end.

(** A number lexeme: an optional minus sign, an integer part without a
    leading zero, an optional fraction and an optional exponent. *)
Definition scan_number (s : string) : option (string * string) :=
  let (sign, s1) :=
    match s with
    | String "-" r => ("-", r)
    | _ => (EmptyString, s)
    end in
  let (int, s2) :=
    match s1 with
    | String "0" r => ("0", r)
    | _ => span is_ascii_digit s1
    end in
  match int with
  | EmptyString => None
  | _ =>
      let (frac, s3) := scan_group ["."%char] false s2 in
      let (exp, s4) := scan_group ["e"%char; "E"%char] true s3 in
      Some (sign ++ int ++ frac ++ exp, s4)
  end.

Definition hex_value (c : ascii) : option nat :=
  let n := nat_of_ascii c in
  if ((48 <=? n) && (n <=? 57))%nat then Some (n - 48)
  else if ((65 <=? n) && (n <=? 70))%nat then Some (n - 55)
  else if ((97 <=? n) && (n <=? 102))%nat then Some (n - 87)
  else None.

Definition simple_escape (c : ascii) : option ascii :=
  if Ascii.eqb c dquote then Some dquote
  else if Ascii.eqb c backslash then Some backslash
  else if Ascii.eqb c "/" then Some "/"%char
  else if Ascii.eqb c "b" then Some (ascii_of_nat 8)
  else if Ascii.eqb c "f" then Some (ascii_of_nat 12)
  else if Ascii.eqb c "n" then Some (ascii_of_nat 10)
  else if Ascii.eqb c "r" then Some (ascii_of_nat 13)
  else if Ascii.eqb c "t" then Some (ascii_of_nat 9)
  else None.

Definition cons_char (c : ascii) (r : option (string * string))
  : option (string * string) :=
  match r with
  | Some (body, rest) => Some (String c body, rest)
  | None => None
  end.

(** The rest of a string literal after its opening quote.  Control
    characters are refused; an escape [\uXXXX] is decoded when its code
    point is below 256 and refused otherwise (it has no counterpart in the
    character model). *)
Fixpoint scan_string (s : string) : option (string * string) :=
  match s with
  | EmptyString => None
  | String c s' =>
      if Ascii.eqb c dquote then Some (EmptyString, s')
      else if Ascii.eqb c backslash then
        match s' with
        | String e s'' =>
            match simple_escape e with
            | Some d => cons_char d (scan_string s'')
            | None =>
                if Ascii.eqb e "u" then
                  match s'' with
                  | String h1 (String h2 (String h3 (String h4 rest))) =>
                      match hex_value h1, hex_value h2,
                            hex_value h3, hex_value h4 with
                      | Some 0, Some 0, Some a, Some b =>
                          cons_char (ascii_of_nat (16 * a + b))
                                    (scan_string rest)
                      | _, _, _, _ => None
                      end
                  | _ => None
                  end
                else None
            end
        | EmptyString => None
        end
      else if (nat_of_ascii c <? 32)%nat then None
      else cons_char c (scan_string s')
  end.

Definition literals : list (string * json) :=
  [("null", JNull); ("true", JBool true); ("false", JBool false);
   ("NaN", JNumber "NaN"); ("Infinity", JNumber "Infinity");
   ("-Infinity", JNumber "-Infinity")].

Fixpoint scan_literal (table : list (string * json)) (s : string)
  : option (json * string) :=
  match table with
  | [] => None
  | (word, v) :: table' =>
      match strip_prefix word s with
      | Some rest => Some (v, rest)
      | None => scan_literal table' s
      end
  end.

(** Recursive descent over the text; every call spends one unit of
    [fuel]. *)
Fixpoint parse_value (fuel : nat) (s : string) : option (json * string) :=
  match fuel with
  | O => None
  | S fuel' =>
      match skip_ws s with
      | EmptyString => None
      | String c rest =>
          if Ascii.eqb c "[" then
            match skip_ws rest with
            | String "]" rest' => Some (JArray [], rest')
            | _ => parse_items fuel' rest []
            end
          else if Ascii.eqb c "{" then
            match skip_ws rest with
            | String "}" rest' => Some (JObject [], rest')
            | _ => parse_members fuel' rest []
            end
          else if Ascii.eqb c dquote then
            match scan_string rest with
            | Some (body, rest') => Some (JString body, rest')
            | None => None
            end
          else
            match scan_literal literals (String c rest) with
            | Some r => Some r
            | None =>
                match scan_number (String c rest) with
                | Some (lexeme, rest') => Some (JNumber lexeme, rest')
                | None => None
                end
            end
      end
  end
with parse_items (fuel : nat) (s : string) (acc : list json)
  : option (json * string) :=
  match fuel with
  | O => None
  | S fuel' =>
      match parse_value fuel' s with
      | None => None
      | Some (v, rest) =>
          match skip_ws rest with
          | String "," rest' => parse_items fuel' rest' (v :: acc)
          | String "]" rest' => Some (JArray (rev (v :: acc)), rest')
          | _ => None
          end
      end
  end
with parse_members (fuel : nat) (s : string) (acc : list (string * json))
  : option (json * string) :=
  match fuel with
  | O => None
  | S fuel' =>
      match skip_ws s with
      | String c rest =>
          if Ascii.eqb c dquote then
            match scan_string rest with
            | None => None
            | Some (key, rest1) =>
                match skip_ws rest1 with
                | String ":" rest2 =>
                    match parse_value fuel' rest2 with
                    | None => None
                    | Some (v, rest3) =>
                        match skip_ws rest3 with
                        | String "," rest4 =>
                            parse_members fuel' rest4 ((key, v) :: acc)
                        | String "}" rest4 =>
                            Some (JObject (rev ((key, v) :: acc)), rest4)
                        | _ => None
                        end
                    end
                | _ => None
                end
            end
          else None
      | EmptyString => None
      end
  end.

(** [json.loads] on the JSON grammar: one value, surrounded by optional
    whitespace.  Object members are kept in source order. *)
Definition json_loads (s : string) : result json :=
  match parse_value (2 * String.length s + 2) s with
  | None => Raise (JSONDecodeError "Expecting value")
  | Some (v, rest) =>
      match skip_ws rest with
      | EmptyString => Ok v
      | String _ _ => Raise (JSONDecodeError "Extra data")
      end
  end.

(** The character references decoded by this instance of [html.unescape]:
    the five predefined entities in their terminated form.  Any other
    text, including other references, is left as it is. *)
Definition entities : list (string * ascii) :=
  [("&amp;", "&"%char); ("&lt;", "<"%char); ("&gt;", ">"%char);
   ("&quot;", dquote); ("&apos;", "'"%char)].

Fixpoint entity_at (table : list (string * ascii)) (s : string)
  : option (ascii * nat) :=
  match table with
  | [] => None
  | (name, c) :: table' =>
      if prefix name s then Some (c, String.length name)
      else entity_at table' s
  end.

(** One left-to-right pass; [skip] counts the characters of a reference
    that are still to be dropped. *)
Fixpoint unescape_from (skip : nat) (s : string) : string :=
  match s with
  | EmptyString => EmptyString
  | String c s' =>
      match skip with
      | S k => unescape_from k s'
      | O =>
          match entity_at entities s with
          | Some (d, n) => String d (unescape_from (n - 1) s')
          | None => String c (unescape_from 0 s')
          end
      end
  end.

Definition html_unescape (s : string) : string := unescape_from 0 s.

(** [urlparse(url).query]: the text between the first [?] and the first
    [#]. *)
Definition urlparse_query (url : string) : result string :=
  match Py.split "?" (Py.first_part (Py.split "#" url)) with
  | _ :: q :: qs => Ok (Py.join "?" (q :: qs))
  | _ => Ok EmptyString
  end.

Fixpoint add_value (k v : string) (d : list (string * list string))
  : list (string * list string) :=
  match d with
  | [] => [(k, [v])]
  | (k', vs) :: d' =>
      if String.eqb k k' then (k', (vs ++ [v])%list) :: d'
      else (k', vs) :: add_value k v d'
  end.

(** [parse_qs(query)] with its default arguments: fields are separated by
    [&], split at their first [=], and dropped when they have no value or
    a blank one.  Percent-escapes and [+] are not decoded here. *)
Definition parse_qs (query : string) : list (string * list string) :=
  fold_left
    (fun d field =>
       match Py.split "=" field with
       | name :: v :: vs =>
           let value := Py.join "=" (v :: vs) in
           if Py.truthy value then add_value name value d else d
       | _ => d
       end)
    (Py.split "&" query) [].

Definition library : Library :=
  Build_Library urlparse_query parse_qs html_unescape json_loads.

End Ref.

(* ===================================================================== *)
(** * Specification-side definitions *)
(* ===================================================================== *)

(** ** Caption normalizer, as the specification words it *)

(** A line is discarded when it is empty after trimming, purely numeric, or
    contains the time-range separator. *)
Definition discarded (line : string) : bool :=
  negb (Py.truthy line) || Py.isdigit line || Py.contains "-->" line.

(** Scan the lines in order, drop the discarded ones, decode the others and
    join them with single spaces. *)
Definition normalize_spec (decode : string -> string) (s : string) : string :=
  Py.join " "
    (map decode
       (filter (fun line => negb (discarded line))
          (map Py.strip (Py.split newline s)))).

Definition kept (line : string) : bool := negb (discarded line).

(** [c in s] for a single character. *)
Fixpoint occurs (c : ascii) (s : string) : bool :=
  match s with
  | EmptyString => false
  | String a s' => Ascii.eqb a c || occurs c s'
  end.

Definition starts_nonspace (s : string) : bool :=
  match s with
  | EmptyString => false
  | String c _ => negb (Py.isspace c)
  end.

(** What every line kept by the normalizer looks like before it is
    decoded: trimmed, not blank, not numeric, without a time-range token or
    a line break. *)
Definition content_line (l : string) : Prop :=
  l <> EmptyString
  /\ starts_nonspace l = true
  /\ Py.rstrip l = l
  /\ Py.isdigit l = false
  /\ Py.contains "-->" l = false
  /\ occurs newline l = false.

(** The non-blank lines of a text, trimmed. *)
Definition content_lines (s : string) : list string :=
  filter Py.truthy (map Py.strip (Py.split newline s)).

(** Already-plain text: no purely numeric line and no time-range token. *)
Definition already_plain (s : string) : bool :=
  forallb (fun line => negb (Py.isdigit (Py.strip line)))
          (Py.split newline s)
  && negb (Py.contains "-->" s).

(** ** Positions of a character *)

(** [i] is the index of the first occurrence of [c] in [s]. *)
Definition first_at (c : ascii) (s : string) (i : nat) : Prop :=
  String.get i s = Some c /\ forall k, k < i -> String.get k s <> Some c.

(** [j] is the index of the last occurrence of [c] in [s]. *)
Definition last_at (c : ascii) (s : string) (j : nat) : Prop :=
  String.get j s = Some c /\ forall k, j < k -> String.get k s <> Some c.

(** ** Failure kinds of the specification *)

(** [MalformedResponse]: the two failures of the reply-parsing step. *)
Definition MalformedResponse (r : QuizResult) : Prop :=
  r = QuizError "Invalid response format from Gemini API"
  \/ r = QuizError "Failed to parse quiz data".

(** What the transcript strategy returns once it has settled on a track. *)
Definition fetched_text (t : Transcript) : TextResult :=
  match fetch t with
  | Ok transcript_data => TextSuccess (Py.join " " transcript_data)
  | Raise e => transcript_handler e
  end.

Definition has_language (code : string) (transcript_list : list Transcript)
  : bool :=
  existsb (fun t => String.eqb (language_code t) code) transcript_list.

(** ** The resolver, as the specification describes it *)

Inductive Source : Type := FromTranscript | FromCaptions | FromDescription.

(** The tag the specification gives each source. *)
Definition spec_tag (src : Source) : string :=
  match src with
  | FromTranscript => "transcript"
  | FromCaptions => "captions"
  | FromDescription => "description"
  end.

(** The tag [process_youtube_video] gives each source. *)
Definition code_tag (src : Source) : string :=
  match src with
  | FromTranscript | FromCaptions => "transcript"
  | FromDescription => "description"
  end.

(** The strategy that produces the text of a video, and that text; [None]
    when the captions strategy raises instead of returning. *)
Definition resolve (lib : Library) (svc : Services)
    (video_id description : string) : option (Source * string) :=
  match value (get_video_transcript svc video_id) with
  | TextSuccess text => Some (FromTranscript, text)
  | TextError _ =>
      match value (get_captions_from_youtube_api lib svc video_id) with
      | Ok (TextSuccess text) => Some (FromCaptions, text)
      | Ok (TextError _) => Some (FromDescription, description)
      | Raise _ => None
      end
  end.

(** The instruction built for a text of a given source. *)
Definition prompt_for (src : Source) (content video_title : string) (n : Z)
  : Prompt :=
  match src with
  | FromTranscript | FromCaptions => TranscriptPrompt content video_title n
  | FromDescription => DescriptionPrompt content video_title n
  end.

(** The last step of the route: the response built from a quiz result. *)
Definition respond (video_title content_source : string) (q : QuizResult)
  : Response :=
  match q with
  | QuizError message => (ErrorBody message, 500%Z)
  | QuizSuccess quiz => (QuizBody video_title quiz content_source, 200%Z)
  end.

(** The [content_source] field of a response, when it has one. *)
Definition content_source_of (r : Response) : option string :=
  match fst r with
  | QuizBody _ _ content_source => Some content_source
  | ErrorBody _ => None
  end.

Definition is_caption_call (ev : Event) : bool :=
  match ev with
  | CaptionsList _ | CaptionsDownload _ => true
  | _ => false
  end.

(* ===================================================================== *)
(** * Sample collaborators and requests *)
(* ===================================================================== *)

Module Demo.

Definition video_id : string := "abc123".
Definition url : string := "https://youtu.be/abc123?t=5".

Definition request : Request :=
  {| youtube_url := Some url; num_questions := 5 |}.

Definition snippet : Snippet :=
  {| title := "Intro to proofs"; description := "A short talk about proofs." |}.

(** A track that cannot be translated. *)
Definition track (code : string) (generated : bool) (parts : list string)
  : Transcript :=
  mkTranscript code generated (Ok parts)
    (fun _ => Raise (OtherError "The requested language is not translatable")).

(** A French track that can be translated. *)
Definition french : Transcript :=
  mkTranscript "fr" false (Ok ["Bonjour"; "le monde"])
    (fun target => Ok (track target true ["Hello"; "world"])).

Definition transcripts_disabled : result (list Transcript) :=
  Raise (TranscriptsDisabled "Subtitles are disabled for this video").

(** A subtitle file of two blocks. *)
Definition srt : string :=
  String.concat (String newline EmptyString)
    ["1"; "00:00:01,000 --> 00:00:02,000"; "Hello"; "";
     "2"; "00:00:02,000 --> 00:00:03,000"; "  big world  "; ""].

Definition quoted (s : string) : string :=
  String Ref.dquote (s ++ String Ref.dquote EmptyString).

(** A reply that wraps a one-question quiz in prose. *)
Definition good_reply : string :=
  "Here is your quiz: [{" ++ quoted "question" ++ ": "
  ++ quoted "What is proved?" ++ ", " ++ quoted "correct_answer" ++ ": "
  ++ quoted "A" ++ "}] Enjoy!".

Definition quiz : json :=
  JArray [JObject [("question", JString "What is proved?");
                   ("correct_answer", JString "A")]].

(** Replies that hold no complete bracket pair. *)
Definition prose_reply : string := "I cannot write a quiz for this video.".
Definition unclosed_reply : string := "Here is your quiz: [1, 2".

Definition services (transcripts : result (list Transcript))
    (captions : result (list CaptionTrack)) (download : result string)
    (reply : string) : Services :=
  {| videos_list := fun v => if String.eqb v video_id then Ok [snippet]
                             else Ok [];
     list_transcripts := fun _ => transcripts;
     captions_list := fun _ => captions;
     captions_download := fun _ => download;
     generate_content := fun _ => Ok {| text := Ok reply |} |}.

(** No transcript and no captions: only the description is left. *)
Definition description_only (reply : string) : Services :=
  services transcripts_disabled (Ok []) (Ok EmptyString) reply.

(** No transcript, one downloadable caption track. *)
Definition captions_only : Services :=
  services transcripts_disabled
    (Ok [{| id := "cap1"; language := "en" |}]) (Ok srt) good_reply.

(** An English transcript is available. *)
Definition with_transcript : Services :=
  services (Ok [track "de" false ["Hallo"]; track "en" true ["Hello"; "there"]])
    (Ok [{| id := "cap1"; language := "en" |}]) (Ok srt) good_reply.

(** The metadata service knows no video. *)
Definition no_video : Services :=
  {| videos_list := fun _ => Ok [];
     list_transcripts := fun _ => transcripts_disabled;
     captions_list := fun _ => Ok [];
     captions_download := fun _ => Ok EmptyString;
     generate_content := fun _ => Ok {| text := Ok good_reply |} |}.

End Demo.

(* ===================================================================== *)
(** * Further specification-side definitions and samples *)
(* ===================================================================== *)

(** A caption track whose language is one of the preferred codes. *)
Definition is_english (track : CaptionTrack) : bool :=
  existsb (String.eqb (language track)) english_codes.

Definition is_generate_call (ev : Event) : bool :=
  match ev with
  | GenerateContent _ => true
  | _ => false
  end.

(** The lines the normalizer has accumulated when its loop ends. *)
Definition plain_lines (lib : Library) (s : string) : list string :=
  clean_loop lib (Py.split newline s) 0 [].

(** What lines 362-364 of [process_youtube_video] make of a request whose
    [youtube_url] is absent or a string: the value under [youtube_url] and
    the outcome of [int(data.get('num_questions', 5))], which may raise. *)
Record Payload := { url_value : option string; count_value : result Z }.

(** [process_youtube_video] from its first line.  Reading [request.json]
    or calling [data.get] may raise, and so may [int(...)]; these lines
    stand before the [try], so an exception they raise leaves the function
    and no response is built. *)
Definition generate_quiz_route (lib : Library) (svc : Services)
    (body : result Payload) : M (result Response) :=
  match body with
  | Raise e => ret (Raise e)
  | Ok data =>
      match count_value data with
      | Raise e => ret (Raise e)
      | Ok n =>
          response <-
            process_youtube_video lib svc
              {| youtube_url := url_value data; num_questions := n |} ;;
          ret (Ok response)
      end
  end.

(** What the captions strategy turns a download, or its failure, into. *)
Definition download_outcome (lib : Library) (svc : Services) (cid : string)
  : result TextResult :=
  match captions_download svc cid with
  | Raise e => captions_handler e
  | Ok caption_text =>
      Ok (TextSuccess (clean_srt_to_plain_text lib caption_text))
  end.

Module Sample.

Definition caption_tracks : list CaptionTrack :=
  [{| id := "cap-fr"; language := "fr" |};
   {| id := "cap-en"; language := "en" |};
   {| id := "cap-gb"; language := "en-GB" |}].

(** An English track without an identifier, ahead of a usable one. *)
Definition unnamed_english : list CaptionTrack :=
  [{| id := "cap-fr"; language := "fr" |};
   {| id := EmptyString; language := "en" |};
   {| id := "cap-gb"; language := "en-GB" |}].

Definition foreign_tracks : list CaptionTrack :=
  [{| id := "cap-fr"; language := "fr" |};
   {| id := "cap-de"; language := "de" |}].

Definition with_captions (tracks : list CaptionTrack) : Services :=
  Demo.services Demo.transcripts_disabled (Ok tracks) (Ok Demo.srt)
    Demo.good_reply.

(** The captions API answers with an error whose content is not JSON. *)
Definition unreadable_error : exn :=
  HttpError "HttpError 502: Bad Gateway"
    (inr (JSONDecodeError "Expecting value: line 1 column 1 (char 0)")).

Definition captions_unreadable : Services :=
  Demo.services Demo.transcripts_disabled (Raise unreadable_error)
    (Ok Demo.srt) Demo.good_reply.


End Sample.

(* ===================================================================== *)
(** * Properties of the string primitives *)
(* ===================================================================== *)

Lemma skipn_nth_cons {A} (d : A) (l : list A) (i : nat) :
  i < List.length l -> skipn i l = nth i l d :: skipn (S i) l.
Proof.
  revert i; induction l as [|a l IH]; intros [|i] Hi; simpl in *;
    try lia; auto.
  apply IH; lia.
Qed.

Lemma prefix_empty (s : string) : prefix EmptyString s = true.
Proof. now destruct s. Qed.

Lemma contains_char (c : ascii) (s : string) :
  Py.contains (String c EmptyString) s = occurs c s.
Proof.
  induction s as [|a s IH]; simpl; [reflexivity|].
  rewrite IH, prefix_empty.
  destruct (ascii_dec c a) as [->|Hne].
  - now rewrite Ascii.eqb_refl.
  - destruct (Ascii.eqb_spec a c); [congruence|reflexivity].
Qed.

Lemma string_app_assoc (a b c : string) : (a ++ b) ++ c = a ++ b ++ c.
Proof. induction a as [|x a IH]; simpl; [reflexivity|now rewrite IH]. Qed.

Lemma occurs_app (c : ascii) (a b : string) :
  occurs c (a ++ b) = occurs c a || occurs c b.
Proof.
  induction a as [|x a IH]; simpl; [reflexivity|].
  now rewrite IH, orb_assoc.
Qed.

Lemma all_chars_app (p : ascii -> bool) (a b : string) :
  Py.all_chars p (a ++ b) = Py.all_chars p a && Py.all_chars p b.
Proof.
  induction a as [|x a IH]; simpl; [reflexivity|].
  now rewrite IH, andb_assoc.
Qed.

(** ** [split] *)

Lemma split_not_nil (sep : ascii) (s : string) : Py.split sep s <> [].
Proof.
  induction s as [|c s IH]; simpl; [discriminate|].
  destruct (Ascii.eqb c sep); [discriminate|].
  destruct (Py.split sep s); [contradiction|discriminate].
Qed.

Lemma split_no_sep (sep : ascii) (s : string) :
  occurs sep s = false -> Py.split sep s = [s].
Proof.
  induction s as [|c s IH]; simpl; [reflexivity|].
  intros H. apply orb_false_iff in H as [Hc Hs].
  rewrite Hc, (IH Hs). reflexivity.
Qed.

Lemma split_hd_prefix (sep : ascii) (s : string) :
  exists b, s = hd EmptyString (Py.split sep s) ++ b.
Proof.
  induction s as [|c s [b IH]]; simpl.
  - now exists EmptyString.
  - destruct (Ascii.eqb c sep); simpl; [now exists (String c s)|].
    pose proof (split_not_nil sep s) as Hnn.
    destruct (Py.split sep s) as [|h t]; [contradiction|].
    simpl in *. exists b. now rewrite IH at 1.
Qed.

(** Every part is a segment of the text, and holds no separator. *)
Lemma split_part (sep : ascii) (s l : string) :
  In l (Py.split sep s) ->
  occurs sep l = false /\ exists a b, s = a ++ l ++ b.
Proof.
  revert l; induction s as [|c s IH]; simpl; intros l Hin.
  - destruct Hin as [<-|[]]. split; [reflexivity|].
    now exists EmptyString, EmptyString.
  - destruct (Ascii.eqb c sep) eqn:Hc.
    + destruct Hin as [<-|Hin].
      * split; [reflexivity|]. now exists EmptyString, (String c s).
      * destruct (IH l Hin) as [Hl (a & b & ->)].
        split; [exact Hl|]. now exists (String c a), b.
    + pose proof (split_not_nil sep s) as Hnn.
      pose proof (split_hd_prefix sep s) as [b Hb].
      destruct (Py.split sep s) as [|h t]; [contradiction|].
      destruct Hin as [<-|Hin].
      * destruct (IH h (or_introl eq_refl)) as [Hh _].
        split; [simpl; now rewrite Hc, Hh|].
        exists EmptyString, b. simpl in *. now rewrite Hb at 1.
      * destruct (IH l (or_intror Hin)) as [Hl (a & b' & ->)].
        split; [exact Hl|]. now exists (String c a), b'.
Qed.

(** ** [strip] *)

Lemma lstrip_suffix (s : string) : exists a, s = a ++ Py.lstrip s.
Proof.
  induction s as [|c s [a IH]]; simpl.
  - now exists EmptyString.
  - destruct (Py.isspace c).
    + exists (String c a). simpl. now rewrite IH at 1.
    + now exists EmptyString.
Qed.

Lemma rstrip_prefix (s : string) : exists b, s = Py.rstrip s ++ b.
Proof.
  induction s as [|c s [b IH]]; simpl.
  - now exists EmptyString.
  - destruct (Py.rstrip s) as [|x r] eqn:Hr.
    + destruct (Py.isspace c).
      * now exists (String c s).
      * exists s. reflexivity.
    + exists b. simpl in *. now rewrite IH at 1.
Qed.

Lemma strip_segment (s : string) : exists a b, s = a ++ Py.strip s ++ b.
Proof.
  unfold Py.strip.
  destruct (lstrip_suffix s) as [a Ha].
  destruct (rstrip_prefix (Py.lstrip s)) as [b Hb].
  exists a, b. now rewrite <- Hb.
Qed.

Lemma lstrip_shape (s : string) :
  Py.lstrip s = EmptyString \/ starts_nonspace (Py.lstrip s) = true.
Proof.
  induction s as [|c s IH]; simpl; [now left|].
  destruct (Py.isspace c) eqn:Hc; [exact IH|].
  right. simpl. now rewrite Hc.
Qed.

Lemma rstrip_idem (s : string) : Py.rstrip (Py.rstrip s) = Py.rstrip s.
Proof.
  induction s as [|c s IH]; simpl; [reflexivity|].
  destruct (Py.rstrip s) as [|x r] eqn:Hr.
  - destruct (Py.isspace c) eqn:Hc; simpl; [reflexivity|now rewrite Hc].
  - simpl in *. now rewrite IH.
Qed.

Lemma rstrip_keeps_start (s : string) :
  starts_nonspace s = true -> starts_nonspace (Py.rstrip s) = true.
Proof.
  destruct s as [|c s]; simpl; [discriminate|].
  intros Hc. destruct (Py.rstrip s).
  - apply negb_true_iff in Hc. rewrite Hc. simpl. now rewrite Hc.
  - exact Hc.
Qed.

(** A trimmed string is empty or starts with a non-space character, and
    trimming it on the right changes nothing. *)
Lemma strip_shape (s : string) :
  Py.rstrip (Py.strip s) = Py.strip s
  /\ (Py.strip s = EmptyString \/ starts_nonspace (Py.strip s) = true).
Proof.
  unfold Py.strip. split; [apply rstrip_idem|].
  destruct (lstrip_shape s) as [->|H]; [now left|].
  right. now apply rstrip_keeps_start.
Qed.

Lemma lstrip_fixed (s : string) :
  starts_nonspace s = true -> Py.lstrip s = s.
Proof.
  destruct s as [|c s]; simpl; [discriminate|].
  intros H. apply negb_true_iff in H. now rewrite H.
Qed.

Lemma rstrip_app (a b : string) :
  b <> EmptyString -> Py.rstrip b = b -> Py.rstrip (a ++ b) = a ++ b.
Proof.
  intros Hne Hb. induction a as [|c a IH]; simpl; [exact Hb|].
  rewrite IH. destruct (a ++ b) eqn:E; [|reflexivity].
  destruct a; simpl in E; [contradiction|discriminate].
Qed.

(** ** Substrings *)

Lemma prefix_app (p s t : string) :
  prefix p s = true -> prefix p (s ++ t) = true.
Proof.
  revert s; induction p as [|c p IH]; intros s;
    [intros _; apply prefix_empty|].
  destruct s as [|x s]; simpl; [discriminate|].
  destruct (ascii_dec c x); [apply IH|discriminate].
Qed.

Lemma contains_segment (p a s b : string) :
  Py.contains p s = true -> Py.contains p (a ++ s ++ b) = true.
Proof.
  intros H. induction a as [|c a IH]; simpl.
  - clear -H. induction s as [|x s IH]; cbn [Py.contains] in H.
    + apply orb_true_iff in H as [H|H]; [|discriminate].
      destruct p; [|discriminate]. now destruct b.
    + change (String x s ++ b) with (String x (s ++ b)). cbn [Py.contains].
      apply orb_true_iff in H as [H|H].
      * change (String x (s ++ b)) with (String x s ++ b).
        now rewrite (prefix_app _ _ _ H).
      * rewrite (IH H). apply orb_true_r.
  - rewrite IH. apply orb_true_r.
Qed.

Lemma prefix_cons (a b : ascii) (p s : string) :
  prefix (String a p) (String b s) = Ascii.eqb a b && prefix p s.
Proof.
  cbn [prefix]. destruct (ascii_dec a b) as [->|Hne].
  - now rewrite Ascii.eqb_refl.
  - destruct (Ascii.eqb_spec a b); [contradiction|reflexivity].
Qed.

Lemma prefix_nil_r (a : ascii) (p : string) :
  prefix (String a p) EmptyString = false.
Proof. reflexivity. Qed.

(** The time-range token holds no space: it cannot straddle the space that
    joins two lines. *)
Lemma arrow_across_space (a b : string) :
  Py.contains "-->" (a ++ String " " b)
  = Py.contains "-->" a || Py.contains "-->" b.
Proof.
  induction a as [|c a IH].
  - reflexivity.
  - change (String c a ++ String " " b) with (String c (a ++ String " " b)).
    cbn [Py.contains]. rewrite IH, orb_assoc. f_equal. f_equal.
    destruct a as [|c1 [|c2 a]]; cbn [append];
      rewrite ?prefix_cons, ?prefix_nil_r, ?prefix_empty;
      cbn [Ascii.eqb Bool.eqb andb];
      rewrite ?andb_false_r; reflexivity.
Qed.

(* ===================================================================== *)
(** * Caption normalizer *)
(* ===================================================================== *)

Section NormalizerFacts.

Variable lib : Library.

(** The loop appends, to what it has accumulated, the decoded lines that
    are kept among those from index [i] on. *)
Lemma clean_loop_spec (lines : list string) (i : nat) (acc : list string) :
  clean_loop lib lines i acc
  = (acc ++ map (html_unescape lib)
                (filter kept (map Py.strip (skipn i lines))))%list.
Proof.
  funelim (clean_loop lib lines i acc).
  1: { rewrite skipn_all2 by lia. simpl. now rewrite app_nil_r. }
  all: try match goal with
         | A : negb ?t = false, B : ?t = false |- _ =>
             rewrite B in A; discriminate
         end.
  all: rewrite (skipn_nth_cons EmptyString) by assumption.
  all: cbn [map filter]; unfold kept at 1, discarded.
  all: repeat match goal with
         | E : _ = true |- _ => rewrite E; clear E
         | E : _ = false |- _ => rewrite E; clear E
         end.
  all: cbn [negb orb andb].
  all: match goal with
       | IH : clean_loop _ _ _ _ = (_ ++ _)%list |- _ => rewrite IH
       end.
  all: rewrite Nat.add_1_r.
  all: try reflexivity.
  now rewrite <- app_assoc.
Qed.

Lemma clean_srt_unfold (s : string) :
  clean_srt_to_plain_text lib s = normalize_spec (html_unescape lib) s.
Proof.
  unfold clean_srt_to_plain_text, normalize_spec.
  now rewrite clean_loop_spec.
Qed.

(** C8. The normalizer scans the lines in order, discards exactly the lines
    that are empty after trimming, purely numeric or hold the time-range
    separator, decodes the character references of every other line, and
    joins the decoded lines, in their original order, with single spaces. *)
Theorem C8_normalizer_refines_spec (s : string) :
  clean_srt_to_plain_text lib s = normalize_spec (html_unescape lib) s.
Proof. exact (clean_srt_unfold s). Qed.

Lemma normalize_spec_kept (decode : string -> string) (s : string) :
  normalize_spec decode s
  = Py.join " "
      (map decode (filter kept (map Py.strip (Py.split newline s)))).
Proof. reflexivity. Qed.

(** ** Idempotence on text that decoding leaves alone *)

Lemma kept_lines_content (s : string) :
  Forall content_line (filter kept (map Py.strip (Py.split newline s))).
Proof.
  apply Forall_forall. intros l Hl.
  apply filter_In in Hl as [Hl Hk].
  apply in_map_iff in Hl as (l0 & <- & Hl0).
  apply split_part in Hl0 as [Hnl _].
  destruct (strip_segment l0) as (a' & b' & Hl0).
  destruct (strip_shape l0) as [Hr Hshape].
  unfold kept, discarded in Hk.
  apply negb_true_iff, orb_false_iff in Hk as [Hk Harrow].
  apply orb_false_iff in Hk as [Hne Hdig].
  apply negb_false_iff in Hne.
  assert (Hnonempty : Py.strip l0 <> EmptyString)
    by (intros E; rewrite E in Hne; discriminate).
  destruct Hshape as [E|Hstart]; [contradiction|].
  rewrite Hl0, !occurs_app in Hnl.
  repeat match goal with
         | H : _ || _ = false |- _ => apply orb_false_iff in H as [? ?]
         end.
  repeat split; assumption.
Qed.

Lemma join_cons2 (x y : string) (rest : list string) :
  Py.join " " (x :: y :: rest) = x ++ String " " (Py.join " " (y :: rest)).
Proof. reflexivity. Qed.

(** Joining content lines with single spaces gives one content line. *)
Lemma join_content (ls : list string) :
  ls <> [] -> Forall content_line ls -> content_line (Py.join " " ls).
Proof.
  induction ls as [|x [|y rest] IH]; intros Hne Hall.
  - contradiction.
  - now inversion Hall.
  - inversion Hall as [|? ? Hx Hrest]; subst.
    specialize (IH ltac:(discriminate) Hrest).
    rewrite join_cons2.
    destruct Hx as (Hx1 & Hx2 & Hx3 & Hx4 & Hx5 & Hx6).
    destruct IH as (Hj1 & Hj2 & Hj3 & Hj4 & Hj5 & Hj6).
    destruct x as [|c x]; [contradiction|].
    repeat split.
    + discriminate.
    + exact Hx2.
    + change (String " " (Py.join " " (y :: rest)))
        with (String " " EmptyString ++ Py.join " " (y :: rest)).
      rewrite <- string_app_assoc. now apply rstrip_app.
    + cbn [append Py.isdigit Py.all_chars].
      rewrite all_chars_app. cbn [Py.all_chars].
      change (Py.isdigit_char " ") with false.
      cbn [andb]. now rewrite !andb_false_r.
    + rewrite arrow_across_space, Hx5, Hj5. reflexivity.
    + rewrite occurs_app, Hx6.
      change (occurs newline (String " " (Py.join " " (y :: rest))))
        with (occurs newline (Py.join " " (y :: rest))).
      now rewrite Hj6.
Qed.

(** The normalizer leaves a content line as it is when decoding does. *)
Lemma clean_content_line (o : string) :
  content_line o ->
  html_unescape lib o = o ->
  clean_srt_to_plain_text lib o = o.
Proof.
  intros H Hu. rewrite clean_srt_unfold, normalize_spec_kept.
  destruct H as (H1 & H2 & H3 & H4 & H5 & H6).
  rewrite (split_no_sep _ _ H6). cbn [map].
  assert (Hs : Py.strip o = o)
    by (unfold Py.strip; now rewrite (lstrip_fixed _ H2)).
  rewrite Hs. cbn [filter]. unfold kept, discarded.
  rewrite H4, H5.
  destruct o as [|c o]; [contradiction|]. cbn [Py.truthy negb orb map].
  now rewrite Hu.
Qed.

(** When decoding changes no kept line, the output is the kept lines
    joined. *)
Lemma clean_fixed_lines (s : string) :
  Forall (fun l => html_unescape lib l = l)
         (filter kept (map Py.strip (Py.split newline s))) ->
  clean_srt_to_plain_text lib s
  = Py.join " " (filter kept (map Py.strip (Py.split newline s))).
Proof.
  intros Hfix. rewrite clean_srt_unfold, normalize_spec_kept. f_equal.
  induction Hfix as [|l ls Hl _ IH]; [reflexivity|].
  cbn [map]. now rewrite Hl, IH.
Qed.

Lemma clean_idempotent_fixed (s : string) :
  let lines := filter kept (map Py.strip (Py.split newline s)) in
  Forall (fun l => html_unescape lib l = l) lines ->
  html_unescape lib (Py.join " " lines) = Py.join " " lines ->
  clean_srt_to_plain_text lib (clean_srt_to_plain_text lib s)
  = clean_srt_to_plain_text lib s.
Proof.
  intros lines Hfix Hjoin. subst lines.
  rewrite (clean_fixed_lines s Hfix).
  pose proof (kept_lines_content s) as Hall.
  destruct (filter kept (map Py.strip (Py.split newline s))) as [|l ls] eqn:E.
  - rewrite clean_srt_unfold. reflexivity.
  - apply clean_content_line; [|exact Hjoin].
    apply join_content; [discriminate|exact Hall].
Qed.

(** On already-plain text the kept lines are the non-blank lines. *)
Lemma plain_kept_lines (s : string) :
  already_plain s = true ->
  filter kept (map Py.strip (Py.split newline s)) = content_lines s.
Proof.
  unfold already_plain, content_lines. intros H.
  apply andb_true_iff in H as [Hdig Harrow].
  apply negb_true_iff in Harrow.
  rewrite forallb_forall in Hdig.
  apply filter_ext_in. intros l Hl.
  apply in_map_iff in Hl as (l0 & <- & Hl0).
  specialize (Hdig l0 Hl0). apply negb_true_iff in Hdig.
  unfold kept, discarded. rewrite Hdig.
  destruct (Py.contains "-->" (Py.strip l0)) eqn:E.
  - exfalso.
    apply split_part in Hl0 as [_ (a & b & Hs)].
    destruct (strip_segment l0) as (a' & b' & Hl0).
    pose proof (contains_segment _ a' _ b' E) as E1. rewrite <- Hl0 in E1.
    pose proof (contains_segment _ a _ b E1) as E2. rewrite <- Hs in E2.
    congruence.
  - now rewrite !orb_false_r, negb_involutive.
Qed.

End NormalizerFacts.

(** C9 (as amended). For every already-plain text (no purely numeric line,
    no time-range token) whose non-blank trimmed lines, and their join by
    single spaces, are left unchanged by the decoding of character
    references, the normalizer returns these lines joined by single spaces,
    and normalizing that output again yields the same string. *)
Theorem C9_normalizer_idempotent_when_decoding_is_neutral
    (lib : Library) (s : string) :
  already_plain s = true ->
  Forall (fun l => html_unescape lib l = l) (content_lines s) ->
  html_unescape lib (Py.join " " (content_lines s))
  = Py.join " " (content_lines s) ->
  clean_srt_to_plain_text lib s = Py.join " " (content_lines s)
  /\ clean_srt_to_plain_text lib (clean_srt_to_plain_text lib s)
     = clean_srt_to_plain_text lib s.
Proof.
  intros Hplain Hfix Hjoin.
  rewrite <- (plain_kept_lines s Hplain) in Hfix, Hjoin |- *. split.
  - now apply clean_fixed_lines.
  - now apply clean_idempotent_fixed.
Qed.

Lemma C9_witness_text_with_ampersands :
  let s := "Tom & Jerry" ++ String newline "  AT&T  " in
  clean_srt_to_plain_text Ref.library s = "Tom & Jerry AT&T"
  /\ clean_srt_to_plain_text Ref.library
       (clean_srt_to_plain_text Ref.library s)
     = clean_srt_to_plain_text Ref.library s.
Proof.
  exact (C9_normalizer_idempotent_when_decoding_is_neutral Ref.library
           ("Tom & Jerry" ++ String newline "  AT&T  ")
           eq_refl
           (Forall_cons _ eq_refl (Forall_cons _ eq_refl (Forall_nil _)))
           eq_refl).
Defined.

(** C9 (as stated) fails: ["&amp;amp;"] is already plain (no numeric line,
    no time-range token), yet the normalizer turns it into ["&amp;"], and
    normalizing that output gives ["&"]. *)
Lemma C9_counterexample_entity_decoded_twice :
  already_plain "&amp;amp;" = true
  /\ clean_srt_to_plain_text Ref.library "&amp;amp;" = "&amp;"
  /\ clean_srt_to_plain_text Ref.library
       (clean_srt_to_plain_text Ref.library "&amp;amp;") = "&"
  /\ clean_srt_to_plain_text Ref.library
       (clean_srt_to_plain_text Ref.library "&amp;amp;")
     <> clean_srt_to_plain_text Ref.library "&amp;amp;".
Proof.
  rewrite !clean_srt_unfold. vm_compute. repeat split; discriminate.
Qed.

(* ===================================================================== *)
(** * URL parser *)
(* ===================================================================== *)

Section ParserFacts.

Variable lib : Library.

(** A URL that mentions the short-link host yields the text after its last
    slash, up to the first question mark. *)
Lemma extract_short_link (u : string) :
  Py.contains "youtu.be" u = true ->
  extract_video_id lib u
  = Ok (Py.first_part (Py.split "?" (Py.last_part (Py.split "/" u)))).
Proof. intros H. unfold extract_video_id. now rewrite H. Qed.

(** A watch URL that does not mention the short-link host yields the first
    value of its [v] parameter. *)
Lemma extract_watch (u query v : string) (vs : list string) :
  Py.contains "youtu.be" u = false ->
  Py.contains "youtube.com/watch" u = true ->
  urlparse_query lib u = Ok query ->
  List.find (fun kv => String.eqb (fst kv) "v") (parse_qs lib query)
  = Some ("v", v :: vs) ->
  extract_video_id lib u = Ok v.
Proof.
  intros H1 H2 H3 H4. unfold extract_video_id. now rewrite H1, H2, H3, H4.
Qed.

(** A watch URL without a [v] parameter is refused. *)
Lemma extract_watch_missing_v (u query : string) :
  Py.contains "youtu.be" u = false ->
  Py.contains "youtube.com/watch" u = true ->
  urlparse_query lib u = Ok query ->
  List.find (fun kv => String.eqb (fst kv) "v") (parse_qs lib query) = None ->
  extract_video_id lib u
  = Raise (ValueError "Invalid YouTube URL: missing video ID parameter").
Proof.
  intros H1 H2 H3 H4. unfold extract_video_id. now rewrite H1, H2, H3, H4.
Qed.


(** The empty URL is refused. *)
Lemma extract_nonempty (u v : string) :
  extract_video_id lib u = Ok v -> Py.truthy u = true.
Proof. destruct u; [discriminate|reflexivity]. Qed.

End ParserFacts.

Example extract_short_example :
  extract_video_id Ref.library "https://youtu.be/abc123?t=5" = Ok "abc123".
Proof. reflexivity. Qed.

Example extract_watch_example :
  extract_video_id Ref.library
    "https://www.youtube.com/watch?v=xyz789&list=PL1" = Ok "xyz789".
Proof. reflexivity. Qed.

(** C4. The parser is meant to return the [v] parameter of every watch URL.
    On a watch URL whose query mentions the short-link host, the short-link
    branch runs first and returns the path segment ["watch"], whatever the
    URL library does; the [v] parameter of that URL is ["dQw4w9WgXcQ"]. *)
Theorem C4_watch_url_taken_for_short_link (lib : Library) :
  let u := "https://www.youtube.com/watch?v=dQw4w9WgXcQ&feature=youtu.be" in
  extract_video_id lib u = Ok "watch"
  /\ Py.contains "youtube.com/watch" u = true
  /\ Ref.urlparse_query u = Ok "v=dQw4w9WgXcQ&feature=youtu.be"
  /\ Ref.parse_qs "v=dQw4w9WgXcQ&feature=youtu.be"
     = [("v", ["dQw4w9WgXcQ"]); ("feature", ["youtu.be"])].
Proof. repeat split. Qed.

(* ===================================================================== *)
(** * Bracket search: [find], [rfind] and slicing *)
(* ===================================================================== *)

Lemma get_lt (s : string) (i : nat) (c : ascii) :
  String.get i s = Some c -> i < String.length s.
Proof.
  revert i; induction s as [|a s IH]; intros [|i] H; simpl in *;
    try discriminate; try lia.
  apply IH in H. lia.
Qed.

Lemma find_from_none (c : ascii) (s : string) (z : Z) :
  occurs c s = false -> Py.find_from c s z = (-1)%Z.
Proof.
  revert z; induction s as [|a s IH]; intros z H; simpl in *; [reflexivity|].
  apply orb_false_iff in H as [Ha Hs]. rewrite Ha. now apply IH.
Qed.

Lemma find_from_first (c : ascii) (s : string) (z : Z) :
  occurs c s = true ->
  exists i, first_at c s i /\ Py.find_from c s z = (z + Z.of_nat i)%Z.
Proof.
  revert z; induction s as [|a s IH]; intros z H; simpl in *; [discriminate|].
  destruct (Ascii.eqb_spec a c) as [->|Hne].
  - exists 0. repeat split; [|lia]. intros k Hk. lia.
  - simpl in H. destruct (IH (z + 1)%Z H) as (i & [Hget Hmin] & Hfind).
    exists (S i). repeat split.
    + exact Hget.
    + intros [|k] Hk; simpl.
      * congruence.
      * apply Hmin. lia.
    + rewrite Hfind. lia.
Qed.

Lemma rfind_from_none (c : ascii) (s : string) (z last : Z) :
  occurs c s = false -> Py.rfind_from c s z last = last.
Proof.
  revert z last; induction s as [|a s IH]; intros z last H; simpl in *;
    [reflexivity|].
  apply orb_false_iff in H as [Ha Hs]. rewrite Ha. now apply IH.
Qed.

Lemma rfind_from_last (c : ascii) (s : string) (z last : Z) :
  occurs c s = true ->
  exists j, last_at c s j /\ Py.rfind_from c s z last = (z + Z.of_nat j)%Z.
Proof.
  revert z last; induction s as [|a s IH]; intros z last H; simpl in *;
    [discriminate|].
  destruct (occurs c s) eqn:Hs.
  - destruct (IH (z + 1)%Z (if Ascii.eqb a c then z else last) eq_refl)
      as (j & [Hget Hmax] & Hfind).
    exists (S j). repeat split.
    + exact Hget.
    + intros [|k] Hk; [lia|]. simpl. apply Hmax. lia.
    + rewrite Hfind. lia.
  - rewrite orb_false_r in H. rewrite H.
    rewrite (rfind_from_none _ _ _ _ Hs).
    exists 0. apply Ascii.eqb_eq in H. subst a. repeat split; [|lia].
    intros [|k] Hk; [lia|]. simpl.
    clear -Hs. revert k; induction s as [|x s IH]; intros k; simpl in *.
    + discriminate.
    + apply orb_false_iff in Hs as [Hx Hs].
      destruct k; [|now apply IH].
      intros E. injection E as ->. now rewrite Ascii.eqb_refl in Hx.
Qed.

(** [rfind] never goes below [-1]. *)
Lemma rfind_lower_bound (c : ascii) (s : string) : (-1 <= Py.rfind c s)%Z.
Proof.
  unfold Py.rfind. destruct (occurs c s) eqn:H.
  - destruct (rfind_from_last c s 0 (-1) H) as (j & _ & ->). lia.
  - rewrite (rfind_from_none _ _ _ _ H). lia.
Qed.

(** Slicing between two positions of the text. *)
Lemma slice_between (s : string) (i j : nat) :
  i < String.length s -> j < String.length s ->
  Py.slice s (Z.of_nat i) (Z.of_nat j + 1) = substring i (j + 1 - i) s.
Proof.
  intros Hi Hj. unfold Py.slice.
  destruct (Z.ltb_spec (Z.of_nat i) 0); [lia|].
  destruct (Z.ltb_spec (Z.of_nat j + 1) 0); [lia|].
  f_equal; lia.
Qed.

Lemma substring_zero (s : string) (n : nat) : substring n 0 s = EmptyString.
Proof.
  revert n; induction s as [|a s IH]; intros [|n]; simpl; auto.
Qed.

(** A slice that stops at index 0 is empty. *)
Lemma slice_to_zero (s : string) (start : Z) :
  (0 <= start)%Z -> Py.slice s start 0 = EmptyString.
Proof.
  intros H. unfold Py.slice.
  destruct (Z.ltb_spec start 0); [lia|]. simpl.
  replace (Z.to_nat (Z.min 0 _ - _)) with 0 by lia.
  apply substring_zero.
Qed.

(* ===================================================================== *)
(** * Quiz synthesizer: parsing the reply *)
(* ===================================================================== *)

Section SynthesizerFacts.

Variable lib : Library.
Variable svc : Services.

Lemma synthesize_trace (prompt : Prompt) :
  trace (synthesize lib svc prompt) = [GenerateContent prompt].
Proof. reflexivity. Qed.

Lemma synthesize_value (prompt : Prompt) (reply : string) :
  generate_content svc prompt = Ok {| text := Ok reply |} ->
  value (synthesize lib svc prompt)
  = match parse_reply lib reply with
    | Ok quiz_result => quiz_result
    | Raise e => quiz_handler e
    end.
Proof. intros H. unfold synthesize, call, value, bind, ret. now rewrite H. Qed.

Lemma find_absent (c : ascii) (s : string) :
  Py.contains (String c EmptyString) s = false -> Py.find c s = (-1)%Z.
Proof. rewrite contains_char. apply find_from_none. Qed.

Lemma find_present (c : ascii) (s : string) :
  Py.contains (String c EmptyString) s = true ->
  exists i, first_at c s i /\ Py.find c s = Z.of_nat i.
Proof.
  rewrite contains_char. intros H.
  destruct (find_from_first c s 0 H) as (i & Hi & E). now exists i.
Qed.

Lemma rfind_absent (c : ascii) (s : string) :
  Py.contains (String c EmptyString) s = false -> Py.rfind c s = (-1)%Z.
Proof. rewrite contains_char. apply rfind_from_none. Qed.

Lemma rfind_present (c : ascii) (s : string) :
  Py.contains (String c EmptyString) s = true ->
  exists j, last_at c s j /\ Py.rfind c s = Z.of_nat j.
Proof.
  rewrite contains_char. intros H.
  destruct (rfind_from_last c s 0 (-1) H) as (j & Hj & E). now exists j.
Qed.

(** Without an opening bracket the reply is refused before any parsing. *)
Lemma parse_reply_no_open (reply : string) :
  Py.contains "[" reply = false ->
  parse_reply lib reply
  = Ok (QuizError "Invalid response format from Gemini API").
Proof.
  intros H. unfold parse_reply. now rewrite (find_absent _ _ H).
Qed.

(** With an opening bracket the slice is handed to the JSON decoder. *)
Lemma parse_reply_open (reply : string) :
  Py.contains "[" reply = true ->
  parse_reply lib reply
  = match json_loads lib
            (Py.slice reply (Py.find "[" reply) (Py.rfind "]" reply + 1)) with
    | Ok quiz_data => Ok (QuizSuccess quiz_data)
    | Raise e => Raise e
    end.
Proof.
  intros H. unfold parse_reply.
  destruct (find_present _ _ H) as (i & _ & ->).
  pose proof (rfind_lower_bound "]" reply).
  destruct (Z.eqb_spec (Z.of_nat i) (-1)); [lia|].
  destruct (Z.eqb_spec (Py.rfind "]" reply + 1) (-1)); [lia|].
  reflexivity.
Qed.

(** With both brackets the slice runs from the first opening bracket through
    the last closing bracket. *)
Lemma slice_brackets (reply : string) :
  Py.contains "[" reply = true ->
  Py.contains "]" reply = true ->
  exists i j,
    first_at "[" reply i /\ last_at "]" reply j
    /\ Py.slice reply (Py.find "[" reply) (Py.rfind "]" reply + 1)
       = substring i (j + 1 - i) reply.
Proof.
  intros Ho Hc.
  destruct (find_present _ _ Ho) as (i & Hi & ->).
  destruct (rfind_present _ _ Hc) as (j & Hj & ->).
  exists i, j. repeat split; try apply Hi; try apply Hj.
  apply slice_between.
  - eapply get_lt, Hi.
  - eapply get_lt, Hj.
Qed.

(** With an opening bracket and no closing bracket the slice is empty. *)
Lemma slice_unclosed (reply : string) :
  Py.contains "[" reply = true ->
  Py.contains "]" reply = false ->
  Py.slice reply (Py.find "[" reply) (Py.rfind "]" reply + 1) = EmptyString.
Proof.
  intros Ho Hc.
  destruct (find_present _ _ Ho) as (i & _ & ->).
  rewrite (rfind_absent _ _ Hc). apply slice_to_zero. lia.
Qed.

End SynthesizerFacts.

(** C5. Whatever text the generative service replies with, for both
    synthesizers: a reply without an opening or without a closing bracket
    fails with [MalformedResponse]; otherwise the text from the first opening
    bracket through the last closing bracket is parsed as JSON, the parsed
    value is returned when parsing succeeds, and a slice that is not valid
    JSON fails with [MalformedResponse].  The JSON library is assumed to
    refuse the empty document. *)
Theorem C5_reply_parsing_policy
    (lib : Library) (svc : Services) (prompt : Prompt) (reply : string) :
  (exists m, json_loads lib EmptyString = Raise (JSONDecodeError m)) ->
  generate_content svc prompt = Ok {| text := Ok reply |} ->
  let r := value (synthesize lib svc prompt) in
  (Py.contains "[" reply = false \/ Py.contains "]" reply = false ->
   MalformedResponse r)
  /\ (Py.contains "[" reply = true -> Py.contains "]" reply = true ->
      exists i j,
        first_at "[" reply i /\ last_at "]" reply j
        /\ r = match json_loads lib (substring i (j + 1 - i) reply) with
               | Ok quiz_data => QuizSuccess quiz_data
               | Raise (JSONDecodeError _) =>
                   QuizError "Failed to parse quiz data"
               | Raise e => QuizError (str e)
               end
        /\ (forall m,
              json_loads lib (substring i (j + 1 - i) reply)
              = Raise (JSONDecodeError m) ->
              MalformedResponse r)).
Proof.
  intros [m Hempty] Hreply r. subst r.
  rewrite (synthesize_value lib svc prompt reply Hreply). split.
  - intros H. destruct (Py.contains "[" reply) eqn:Ho.
    + destruct H as [H|Hc]; [discriminate|].
      rewrite (parse_reply_open lib reply Ho), (slice_unclosed reply Ho Hc).
      rewrite Hempty. now right.
    + rewrite (parse_reply_no_open lib reply Ho). now left.
  - intros Ho Hc.
    destruct (slice_brackets reply Ho Hc) as (i & j & Hi & Hj & Hs).
    exists i, j. rewrite (parse_reply_open lib reply Ho), Hs.
    repeat split; try apply Hi; try apply Hj.
    + destruct (json_loads lib (substring i (j + 1 - i) reply)) as [q|e];
        [reflexivity|now destruct e].
    + intros m' E. rewrite E. now right.
Qed.

Lemma C5_witness_prose_reply :
  MalformedResponse
    (value (synthesize Ref.library (Demo.description_only Demo.prose_reply)
              (DescriptionPrompt "A short talk about proofs."
                 "Intro to proofs" 5))).
Proof.
  exact (proj1 (C5_reply_parsing_policy Ref.library
                  (Demo.description_only Demo.prose_reply)
                  (DescriptionPrompt "A short talk about proofs."
                     "Intro to proofs" 5)
                  Demo.prose_reply
                  (ex_intro _ "Expecting value" eq_refl) eq_refl)
               (or_introl eq_refl)).
Defined.

Example synthesize_wrapped_quiz :
  value (synthesize Ref.library (Demo.description_only Demo.good_reply)
           (DescriptionPrompt "A short talk about proofs." "Intro to proofs" 5))
  = QuizSuccess Demo.quiz.
Proof. reflexivity. Qed.

(** C10. Since [end_idx] is [rfind(']') + 1], it is never [-1]; the
    missing-bracket branch is therefore taken exactly when the reply holds no
    opening bracket; and a reply with an opening bracket but no closing one
    reaches the JSON decoder with the empty slice and fails through the
    decode-error branch, for both synthesizers.  The JSON library is assumed
    to refuse the empty document. *)
Theorem C10_missing_bracket_branch
    (lib : Library) (svc : Services) (prompt : Prompt) (reply : string) :
  (exists m, json_loads lib EmptyString = Raise (JSONDecodeError m)) ->
  generate_content svc prompt = Ok {| text := Ok reply |} ->
  (Py.rfind "]" reply + 1 <> -1)%Z
  /\ (parse_reply lib reply
      = Ok (QuizError "Invalid response format from Gemini API")
      <-> Py.contains "[" reply = false)
  /\ (Py.contains "[" reply = true -> Py.contains "]" reply = false ->
      Py.slice reply (Py.find "[" reply) (Py.rfind "]" reply + 1)
      = EmptyString
      /\ (exists m, parse_reply lib reply = Raise (JSONDecodeError m))
      /\ value (synthesize lib svc prompt)
         = QuizError "Failed to parse quiz data").
Proof.
  intros [m Hempty] Hreply. split; [|split].
  - pose proof (rfind_lower_bound "]" reply). lia.
  - split.
    + intros H. destruct (Py.contains "[" reply) eqn:Ho; [|reflexivity].
      rewrite (parse_reply_open lib reply Ho) in H.
      destruct (json_loads lib (Py.slice _ _ _)); discriminate.
    + apply parse_reply_no_open.
  - intros Ho Hc. pose proof (slice_unclosed reply Ho Hc) as Hs.
    split; [exact Hs|].
    assert (E : parse_reply lib reply = Raise (JSONDecodeError m))
      by (now rewrite (parse_reply_open lib reply Ho), Hs, Hempty).
    split; [now exists m|].
    now rewrite (synthesize_value lib svc prompt reply Hreply), E.
Qed.

Lemma C10_witness_unclosed_reply :
  value (synthesize Ref.library (Demo.description_only Demo.unclosed_reply)
           (TranscriptPrompt "Hello big world" "Intro to proofs" 5))
  = QuizError "Failed to parse quiz data".
Proof.
  exact (proj2 (proj2
           (proj2 (proj2
              (C10_missing_bracket_branch Ref.library
                 (Demo.description_only Demo.unclosed_reply)
                 (TranscriptPrompt "Hello big world" "Intro to proofs" 5)
                 Demo.unclosed_reply
                 (ex_intro _ "Expecting value" eq_refl) eq_refl))
              eq_refl eq_refl))).
Defined.

(* ===================================================================== *)
(** * Strategy 1: choosing a transcript track *)
(* ===================================================================== *)

Lemma track_with_code (code : string) (generated : bool) (t : Transcript) :
  track_with code generated t = true -> language_code t = code.
Proof.
  unfold track_with. intros H. apply andb_true_iff in H as [H _].
  now apply String.eqb_eq.
Qed.

(** A track found by [find_transcript] is a listed track with one of the
    requested codes. *)
Lemma find_transcript_sound (tl : list Transcript) (codes : list string)
    (t : Transcript) :
  find_transcript tl codes = Ok t -> In t tl /\ In (language_code t) codes.
Proof.
  induction codes as [|code codes IH]; simpl; [discriminate|].
  destruct (List.find (track_with code false) tl) as [t1|] eqn:E1.
  - intros [= <-]. apply find_some in E1 as [Hin Hp].
    split; [exact Hin|]. left. symmetry. now apply track_with_code in Hp.
  - destruct (List.find (track_with code true) tl) as [t2|] eqn:E2.
    + intros [= <-]. apply find_some in E2 as [Hin Hp].
      split; [exact Hin|]. left. symmetry. now apply track_with_code in Hp.
    + intros H. destruct (IH H). auto.
Qed.

(** [find_transcript] succeeds as soon as one requested code is listed. *)
Lemma find_transcript_complete (tl : list Transcript) (codes : list string) :
  existsb (fun code => has_language code tl) codes = true ->
  exists t, find_transcript tl codes = Ok t.
Proof.
  induction codes as [|code codes IH]; simpl; [discriminate|].
  intros H.
  destruct (List.find (track_with code false) tl) as [t1|] eqn:E1;
    [now exists t1|].
  destruct (List.find (track_with code true) tl) as [t2|] eqn:E2;
    [now exists t2|].
  apply orb_true_iff in H as [H|H]; [|now apply IH].
  exfalso. unfold has_language in H.
  apply existsb_exists in H as (t & Hin & Hcode).
  pose proof (find_none _ _ E1 t Hin) as N1.
  pose proof (find_none _ _ E2 t Hin) as N2.
  unfold track_with in N1, N2. rewrite Hcode in N1, N2.
  destruct (is_generated t); discriminate.
Qed.

(** [find_transcript] fails when no requested code is listed. *)
Lemma find_transcript_none (tl : list Transcript) (codes : list string) :
  existsb (fun code => has_language code tl) codes = false ->
  exists e, find_transcript tl codes = Raise e.
Proof.
  intros H. destruct (find_transcript tl codes) as [t|e] eqn:E;
    [|now exists e].
  exfalso. apply find_transcript_sound in E as [Hin Hcode].
  assert (existsb (fun code => has_language code tl) codes = true);
    [|congruence].
  apply existsb_exists. exists (language_code t). split; [exact Hcode|].
  apply existsb_exists. exists t. split; [exact Hin|apply String.eqb_refl].
Qed.

Lemma get_video_transcript_trace (svc : Services) (video_id : string) :
  trace (get_video_transcript svc video_id) = [ListTranscripts video_id].
Proof. reflexivity. Qed.

Lemma get_video_transcript_value (svc : Services) (video_id : string)
    (tl : list Transcript) :
  list_transcripts svc video_id = Ok tl ->
  value (get_video_transcript svc video_id)
  = match pick_transcript tl with
    | EarlyReturn r => r
    | Propagates e => transcript_handler e
    | Selected t => fetched_text t
    end.
Proof.
  intros H. unfold get_video_transcript, call, bind, ret, value.
  cbn [fst]. rewrite H. reflexivity.
Qed.

(** C7. The strategy is meant to take an [en] track, else an [en-US] or
    [en-GB] track, else to translate the first listed track into English.
    The first two steps work as meant.  The third never does: taking the
    first track with a subscript raises [TypeError], which the
    [except IndexError] clause does not catch, so with no English track
    listed (and also with no track at all) the strategy translates nothing
    and fails with the generic retrieval error. *)
Theorem C7_first_track_is_never_translated
    (svc : Services) (video_id : string) (tl : list Transcript) :
  list_transcripts svc video_id = Ok tl ->
  let outcome := value (get_video_transcript svc video_id) in
  (has_language "en" tl = true ->
   exists t, In t tl /\ language_code t = "en"
             /\ pick_transcript tl = Selected t /\ outcome = fetched_text t)
  /\ (has_language "en" tl = false ->
      has_language "en-US" tl || has_language "en-GB" tl = true ->
      exists t, In t tl
                /\ (language_code t = "en-US" \/ language_code t = "en-GB")
                /\ pick_transcript tl = Selected t
                /\ outcome = fetched_text t)
  /\ (has_language "en" tl = false ->
      has_language "en-US" tl = false ->
      has_language "en-GB" tl = false ->
      pick_transcript tl
      = Propagates
          (OtherError "'TranscriptList' object is not subscriptable")
      /\ outcome
         = TextError
             "Error retrieving transcript: 'TranscriptList' object is not subscriptable").
Proof.
  intros Hlist outcome. subst outcome.
  rewrite (get_video_transcript_value svc video_id tl Hlist).
  unfold pick_transcript.
  split; [|split].
  - intros Hen.
    destruct (find_transcript_complete tl ["en"]) as [t Ht];
      [cbn [existsb]; now rewrite Hen|].
    rewrite Ht. exists t.
    destruct (find_transcript_sound _ _ _ Ht) as [Hin [Hc|[]]].
    repeat split; auto.
  - intros Hen Hvar.
    destruct (find_transcript_none tl ["en"]) as [e He];
      [cbn [existsb]; now rewrite Hen|].
    destruct (find_transcript_complete tl ["en-US"; "en-GB"]) as [t Ht];
      [cbn [existsb]; now rewrite orb_false_r|].
    rewrite He, Ht. exists t.
    destruct (find_transcript_sound _ _ _ Ht) as [Hin [Hc|[Hc|[]]]];
      repeat split; auto.
  - intros Hen Hus Hgb.
    destruct (find_transcript_none tl ["en"]) as [e1 He1];
      [cbn [existsb]; now rewrite Hen|].
    destruct (find_transcript_none tl ["en-US"; "en-GB"])
      as [e2 He2]; [cbn [existsb]; now rewrite Hus, Hgb|].
    rewrite He1, He2. now split.
Qed.

Lemma C7_witness_french_track_only :
  translate Demo.french "en" = Ok (Demo.track "en" true ["Hello"; "world"])
  /\ value (get_video_transcript
              (Demo.services (Ok [Demo.french]) (Ok []) (Ok EmptyString)
                 Demo.good_reply) Demo.video_id)
     = TextError
         "Error retrieving transcript: 'TranscriptList' object is not subscriptable".
Proof.
  split; [reflexivity|].
  exact (proj2 (proj2 (proj2
           (C7_first_track_is_never_translated
              (Demo.services (Ok [Demo.french]) (Ok []) (Ok EmptyString)
                 Demo.good_reply)
              Demo.video_id [Demo.french] eq_refl))
           eq_refl eq_refl eq_refl)).
Defined.

(* ===================================================================== *)
(** * The route: prerequisite, fallback chain and annotation *)
(* ===================================================================== *)

Section RouteFacts.

Variable lib : Library.
Variable svc : Services.

Lemma get_video_info_run (video_id : string) :
  get_video_info svc video_id
  = (value (get_video_info svc video_id), [VideosList video_id]).
Proof. reflexivity. Qed.

Lemma get_video_transcript_run (video_id : string) :
  get_video_transcript svc video_id
  = (value (get_video_transcript svc video_id), [ListTranscripts video_id]).
Proof. reflexivity. Qed.

Lemma synthesize_run (prompt : Prompt) :
  synthesize lib svc prompt
  = (value (synthesize lib svc prompt), [GenerateContent prompt]).
Proof. reflexivity. Qed.

(** The metadata lookup fails exactly when the platform reports no item or
    the call raises. *)
Lemma get_video_info_fails (video_id : string) :
  (exists message,
     value (get_video_info svc video_id) = VideoInfoError message)
  <-> (videos_list svc video_id = Ok []
       \/ exists e, videos_list svc video_id = Raise e).
Proof.
  unfold get_video_info, call, bind, ret, value. cbn [fst].
  destruct (videos_list svc video_id) as [[|item items]|e]; split.
  - now left.
  - intros _. eexists. reflexivity.
  - intros [m H]. discriminate.
  - intros [H|[e H]]; discriminate.
  - intros _. right. now exists e.
  - intros _. destruct e; eexists; reflexivity.
Qed.

(** A successful lookup returns the identifier it was asked about. *)
Lemma get_video_info_id (video_id t d v : string) :
  value (get_video_info svc video_id) = VideoInfoSuccess t d v ->
  v = video_id.
Proof.
  unfold get_video_info, call, bind, ret, value. cbn [fst].
  destruct (videos_list svc video_id) as [[|item items]|e].
  - discriminate.
  - now intros [= _ _ <-].
  - destruct e; discriminate.
Qed.

(** Whenever the captions strategy runs, it lists the caption tracks. *)
Lemma captions_call_logged (video_id : string) :
  exists rest,
    trace (get_captions_from_youtube_api lib svc video_id)
    = CaptionsList video_id :: rest.
Proof.
  unfold get_captions_from_youtube_api, call, bind, ret, trace.
  destruct (captions_list svc video_id) as [[|first tracks]|e];
    cbn [snd app]; try (eexists; reflexivity).
  destruct (if caption_id_truthy (first_english_caption (first :: tracks))
            then first_english_caption (first :: tracks)
            else Some (id first)) as [cid|]; [|eexists; reflexivity].
  destruct (Py.truthy cid); [|eexists; reflexivity].
  destruct (captions_download svc cid); eexists; reflexivity.
Qed.

(** The run of a request whose URL parses and whose metadata is found. *)
Lemma process_run (req : Request) (url video_id t d v : string) :
  youtube_url req = Some url ->
  extract_video_id lib url = Ok video_id ->
  value (get_video_info svc video_id) = VideoInfoSuccess t d v ->
  let n := num_questions req in
  let c := get_captions_from_youtube_api lib svc video_id in
  process_youtube_video lib svc req
  = match value (get_video_transcript svc video_id) with
    | TextSuccess text =>
        (respond t "transcript" (value (generate_quiz lib svc text t n)),
         [VideosList video_id; ListTranscripts video_id;
          GenerateContent (TranscriptPrompt text t n)])
    | TextError _ =>
        match value c with
        | Raise e =>
            (request_handler e,
             VideosList video_id :: ListTranscripts video_id :: trace c)
        | Ok (TextSuccess text) =>
            (respond t "transcript" (value (generate_quiz lib svc text t n)),
             VideosList video_id :: ListTranscripts video_id
             :: (trace c ++ [GenerateContent (TranscriptPrompt text t n)])%list)
        | Ok (TextError _) =>
            (respond t "description"
               (value (generate_quiz_from_description lib svc d t n)),
             VideosList video_id :: ListTranscripts video_id
             :: (trace c ++ [GenerateContent (DescriptionPrompt d t n)])%list)
        end
    end.
Proof.
  intros Hurl Hid Hinfo n c. subst n. unfold process_youtube_video.
  rewrite Hurl, (extract_nonempty lib url video_id Hid), Hid.
  cbn [negb]. rewrite get_video_info_run, Hinfo.
  rewrite get_video_transcript_run.
  unfold generate_quiz, generate_quiz_from_description.
  unfold bind at 1. unfold bind at 1.
  destruct (value (get_video_transcript svc video_id)) as [m|text].
  - fold c. destruct c as [[[m'|text]|e] tr]; cbn [value trace fst snd];
      unfold bind, ret; cbn beta iota; try rewrite synthesize_run;
      cbn beta iota; cbn [app]; unfold respond.
    + destruct (value (synthesize lib svc _)); now rewrite ?app_nil_r.
    + destruct (value (synthesize lib svc _)); now rewrite ?app_nil_r.
    + now rewrite app_nil_r.
  - cbn [value fst]. unfold bind, ret; cbn beta iota; rewrite synthesize_run;
      cbn beta iota; cbn [app]; unfold respond.
    destruct (value (synthesize lib svc _)); reflexivity.
Qed.

End RouteFacts.

(** The run of a request whose URL parses and whose metadata lookup
    fails. *)
Lemma process_hard_stop
    (lib : Library) (svc : Services) (req : Request)
    (url video_id message : string) :
  youtube_url req = Some url ->
  extract_video_id lib url = Ok video_id ->
  value (get_video_info svc video_id) = VideoInfoError message ->
  process_youtube_video lib svc req
  = ((ErrorBody message, 500%Z), [VideosList video_id]).
Proof.
  intros Hurl Hid Hinfo. unfold process_youtube_video.
  rewrite Hurl, (extract_nonempty lib url video_id Hid), Hid.
  cbn [negb]. now rewrite get_video_info_run, Hinfo.
Qed.

(** C2. When the prerequisite metadata lookup fails (no such video, or an
    API error), the request fails with that very error and status 500, and
    the only outbound call is the metadata lookup: no transcript lookup, no
    captions call and no call to the generative service is made. *)
Theorem C2_metadata_failure_is_a_hard_stop
    (lib : Library) (svc : Services) (req : Request)
    (url video_id message : string) :
  youtube_url req = Some url ->
  extract_video_id lib url = Ok video_id ->
  value (get_video_info svc video_id) = VideoInfoError message ->
  value (process_youtube_video lib svc req) = (ErrorBody message, 500%Z)
  /\ trace (process_youtube_video lib svc req) = [VideosList video_id].
Proof.
  intros Hurl Hid Hinfo.
  now rewrite (process_hard_stop lib svc req url video_id message).
Qed.

Lemma C2_witness_video_not_found :
  value (process_youtube_video Ref.library Demo.no_video Demo.request)
  = (ErrorBody "Video not found. Please check the URL and try again.", 500%Z)
  /\ trace (process_youtube_video Ref.library Demo.no_video Demo.request)
     = [VideosList Demo.video_id].
Proof.
  exact (C2_metadata_failure_is_a_hard_stop Ref.library Demo.no_video
           Demo.request Demo.url Demo.video_id
           "Video not found. Please check the URL and try again."
           eq_refl eq_refl eq_refl).
Defined.

(** C3. When the transcript lookup returns success, the request makes no
    call of the captions strategy. *)
Theorem C3_transcript_success_skips_captions
    (lib : Library) (svc : Services) (req : Request)
    (url video_id text : string) :
  youtube_url req = Some url ->
  extract_video_id lib url = Ok video_id ->
  value (get_video_transcript svc video_id) = TextSuccess text ->
  existsb is_caption_call (trace (process_youtube_video lib svc req)) = false.
Proof.
  intros Hurl Hid Htext.
  destruct (value (get_video_info svc video_id)) as [m|t d v] eqn:Hinfo.
  - now rewrite (process_hard_stop lib svc req url video_id m).
  - rewrite (process_run lib svc req url video_id t d v Hurl Hid Hinfo).
    rewrite Htext. reflexivity.
Qed.

Lemma C3_witness_english_transcript :
  existsb is_caption_call
    (trace (process_youtube_video Ref.library Demo.with_transcript
              Demo.request)) = false.
Proof.
  exact (C3_transcript_success_skips_captions Ref.library
           Demo.with_transcript Demo.request Demo.url Demo.video_id
           "Hello there" eq_refl eq_refl eq_refl).
Defined.

(** C1 (as amended). When the metadata lookup succeeds and both the
    transcript lookup and the captions fallback return a failure, the
    resolver hands the video's description to the synthesizer, and the
    response is the one built from the synthesizer's result with content
    source ["description"]: whenever synthesis succeeds, the response is
    tagged ["description"]. *)
Theorem C1_description_fallback
    (lib : Library) (svc : Services) (req : Request)
    (url video_id t d v m1 m2 : string) :
  youtube_url req = Some url ->
  extract_video_id lib url = Ok video_id ->
  value (get_video_info svc video_id) = VideoInfoSuccess t d v ->
  value (get_video_transcript svc video_id) = TextError m1 ->
  value (get_captions_from_youtube_api lib svc video_id) = Ok (TextError m2) ->
  let n := num_questions req in
  let q := value (generate_quiz_from_description lib svc d t n) in
  let response := value (process_youtube_video lib svc req) in
  resolve lib svc video_id d = Some (FromDescription, d)
  /\ In (GenerateContent (DescriptionPrompt d t n))
        (trace (process_youtube_video lib svc req))
  /\ response = respond t "description" q
  /\ (forall quiz, q = QuizSuccess quiz ->
        response = (QuizBody t quiz "description", 200%Z)
        /\ content_source_of response = Some "description").
Proof.
  intros Hurl Hid Hinfo Htr Hcap n q response. subst n q response.
  rewrite (process_run lib svc req url video_id t d v Hurl Hid Hinfo).
  unfold resolve. rewrite Htr, Hcap. cbn [value trace fst snd].
  split; [reflexivity|]. split; [|split].
  - right. right. apply in_or_app. right. now left.
  - reflexivity.
  - intros quiz ->. split; reflexivity.
Qed.

Lemma C1_witness_description_quiz :
  value (process_youtube_video Ref.library
           (Demo.description_only Demo.good_reply) Demo.request)
  = (QuizBody "Intro to proofs" Demo.quiz "description", 200%Z).
Proof.
  exact (proj1 (proj2 (proj2 (proj2
           (C1_description_fallback Ref.library
              (Demo.description_only Demo.good_reply) Demo.request
              Demo.url Demo.video_id
              "Intro to proofs" "A short talk about proofs." Demo.video_id
              no_transcript_message "No captions available for this video"
              eq_refl eq_refl eq_refl eq_refl eq_refl)))
           Demo.quiz eq_refl)).
Defined.

(** C1 (as stated) fails: with metadata found, no transcript and no
    captions, a reply without brackets makes the request fail; the response
    is the synthesizer's error and carries no content source. *)
Lemma C1_counterexample_failed_synthesis :
  value (get_video_info (Demo.description_only Demo.prose_reply)
           Demo.video_id)
  = VideoInfoSuccess "Intro to proofs" "A short talk about proofs."
      Demo.video_id
  /\ value (get_video_transcript (Demo.description_only Demo.prose_reply)
              Demo.video_id)
     = TextError no_transcript_message
  /\ value (get_captions_from_youtube_api Ref.library
              (Demo.description_only Demo.prose_reply) Demo.video_id)
     = Ok (TextError "No captions available for this video")
  /\ value (process_youtube_video Ref.library
              (Demo.description_only Demo.prose_reply) Demo.request)
     = (ErrorBody "Invalid response format from Gemini API", 500%Z)
  /\ content_source_of
       (value (process_youtube_video Ref.library
                 (Demo.description_only Demo.prose_reply) Demo.request))
     = None.
Proof. repeat split. Qed.

(** C6 (as amended). The response of every successful request carries the
    tag of the source that produced the text handed to the synthesizer:
    ["transcript"] for text of the transcript provider and also for text of
    the captions fallback, ["description"] for the description. *)
Theorem C6_content_source_annotation
    (lib : Library) (svc : Services) (req : Request)
    (video_title : string) (quiz : json) (content_source : string)
    (status : Z) :
  value (process_youtube_video lib svc req)
  = (QuizBody video_title quiz content_source, status) ->
  exists url video_id description src content,
    youtube_url req = Some url
    /\ extract_video_id lib url = Ok video_id
    /\ value (get_video_info svc video_id)
       = VideoInfoSuccess video_title description video_id
    /\ resolve lib svc video_id description = Some (src, content)
    /\ In (GenerateContent
             (prompt_for src content video_title (num_questions req)))
          (trace (process_youtube_video lib svc req))
    /\ content_source = code_tag src
    /\ status = 200%Z.
Proof.
  intros H.
  destruct (youtube_url req) as [url|] eqn:Hurl;
    [|unfold process_youtube_video in H; rewrite Hurl in H; discriminate].
  destruct (extract_video_id lib url) as [video_id|e] eqn:Hid.
  2: { unfold process_youtube_video in H. rewrite Hurl, Hid in H.
       unfold request_handler in H.
       destruct (Py.truthy url), (is_ValueError e); discriminate. }
  destruct (value (get_video_info svc video_id)) as [m|t d v] eqn:Hinfo.
  1: { rewrite (process_hard_stop lib svc req url video_id m Hurl Hid Hinfo)
         in H. discriminate. }
  pose proof (get_video_info_id svc video_id t d v Hinfo) as ->.
  pose proof (process_run lib svc req url video_id t d video_id
                Hurl Hid Hinfo) as Hrun.
  cbv zeta in Hrun. rewrite Hrun in H.
  destruct (value (get_video_transcript svc video_id)) as [m1|text] eqn:Htr.
  - destruct (value (get_captions_from_youtube_api lib svc video_id))
      as [[m2|text]|e] eqn:Hcap.
    + cbn [value fst] in H. unfold respond in H.
      destruct (value (generate_quiz_from_description _ _ _ _ _));
        [discriminate|]. injection H as <- <- <- <-.
      exists url, video_id, d, FromDescription, d.
      unfold resolve. rewrite Hrun, Htr, Hcap. repeat split; auto.
      cbn [trace snd prompt_for]. right. right. apply in_or_app. right.
      now left.
    + cbn [value fst] in H. unfold respond in H.
      destruct (value (generate_quiz _ _ _ _ _));
        [discriminate|]. injection H as <- <- <- <-.
      exists url, video_id, d, FromCaptions, text.
      unfold resolve. rewrite Hrun, Htr, Hcap. repeat split; auto.
      cbn [trace snd prompt_for]. right. right. apply in_or_app. right.
      now left.
    + cbn [value fst] in H. unfold request_handler in H.
      destruct (is_ValueError e); discriminate.
  - cbn [value fst] in H. unfold respond in H.
    destruct (value (generate_quiz _ _ _ _ _));
      [discriminate|]. injection H as <- <- <- <-.
    exists url, video_id, d, FromTranscript, text.
    unfold resolve. rewrite Hrun, Htr. repeat split; auto.
    cbn [trace snd prompt_for]. right. right. now left.
Qed.

Lemma C6_witness_captions_request :
  exists url video_id description src content,
    youtube_url Demo.request = Some url
    /\ extract_video_id Ref.library url = Ok video_id
    /\ value (get_video_info Demo.captions_only video_id)
       = VideoInfoSuccess "Intro to proofs" description video_id
    /\ resolve Ref.library Demo.captions_only video_id description
       = Some (src, content)
    /\ In (GenerateContent
             (prompt_for src content "Intro to proofs"
                (num_questions Demo.request)))
          (trace (process_youtube_video Ref.library Demo.captions_only
                    Demo.request))
    /\ "transcript" = code_tag src
    /\ 200%Z = 200%Z.
Proof.
  exact (C6_content_source_annotation Ref.library Demo.captions_only
           Demo.request "Intro to proofs" Demo.quiz "transcript" 200%Z
           eq_refl).
Defined.

(** C6 (as stated) fails: text produced by the captions fallback is tagged
    ["transcript"], not ["captions"]. *)
Lemma C6_counterexample_captions_tagged_transcript :
  resolve Ref.library Demo.captions_only Demo.video_id
    "A short talk about proofs."
  = Some (FromCaptions, "Hello big world")
  /\ value (process_youtube_video Ref.library Demo.captions_only Demo.request)
     = (QuizBody "Intro to proofs" Demo.quiz "transcript", 200%Z)
  /\ spec_tag FromCaptions = "captions"
  /\ content_source_of
       (value (process_youtube_video Ref.library Demo.captions_only
                 Demo.request))
     <> Some (spec_tag FromCaptions).
Proof. repeat split. discriminate. Qed.

(* ===================================================================== *)
(** * Further properties of the caption normalizer *)
(* ===================================================================== *)

Lemma split_app_sep (sep : ascii) (a b : string) :
  Py.split sep (a ++ String sep b)
  = (Py.split sep a ++ Py.split sep b)%list.
Proof.
  induction a as [|c a IH].
  - simpl. now rewrite Ascii.eqb_refl.
  - change (String c a ++ String sep b) with (String c (a ++ String sep b)).
    cbn [Py.split]. rewrite IH.
    destruct (Ascii.eqb c sep); [reflexivity|].
    pose proof (split_not_nil sep a) as Hnn.
    destruct (Py.split sep a) as [|h t]; [contradiction|reflexivity].
Qed.

Lemma plain_lines_unfold (lib : Library) (s : string) :
  plain_lines lib s
  = map (html_unescape lib)
        (filter kept (map Py.strip (Py.split newline s))).
Proof. unfold plain_lines. now rewrite clean_loop_spec. Qed.

Lemma plain_lines_app (lib : Library) (a b : string) :
  plain_lines lib (a ++ String newline b)
  = (plain_lines lib a ++ plain_lines lib b)%list.
Proof.
  rewrite !plain_lines_unfold, split_app_sep.
  now rewrite map_app, filter_app, map_app.
Qed.

Lemma plain_lines_discarded (lib : Library) (l : string) :
  occurs newline l = false ->
  discarded (Py.strip l) = true ->
  plain_lines lib l = [].
Proof.
  intros Hnl Hd. rewrite plain_lines_unfold, (split_no_sep _ _ Hnl).
  cbn [map filter]. unfold kept. now rewrite Hd.
Qed.

Lemma lstrip_blank (s : string) :
  Py.all_chars Py.isspace s = true -> Py.lstrip s = EmptyString.
Proof.
  induction s as [|c s IH]; simpl; [reflexivity|].
  intros H. apply andb_true_iff in H as [Hc Hs]. rewrite Hc. now apply IH.
Qed.

(** X1. The normalizer treats its input line by line: the lines it keeps
    for two texts joined by a line break are the lines kept for the first
    followed by the lines kept for the second, and the output is their join
    with single spaces. *)
Theorem X1_normalizer_distributes_over_line_breaks
    (lib : Library) (a b : string) :
  plain_lines lib (a ++ String newline b)
  = (plain_lines lib a ++ plain_lines lib b)%list
  /\ clean_srt_to_plain_text lib (a ++ String newline b)
     = Py.join " " (plain_lines lib a ++ plain_lines lib b).
Proof.
  split; [apply plain_lines_app|].
  unfold clean_srt_to_plain_text. fold (plain_lines lib (a ++ String newline b)).
  now rewrite plain_lines_app.
Qed.

(** X2. A sequence-index line, a timestamp line or a blank line can be
    inserted between two lines of a subtitle text without changing what the
    normalizer returns. *)
Theorem X2_discarded_line_is_invisible
    (lib : Library) (a l b : string) :
  occurs newline l = false ->
  discarded (Py.strip l) = true ->
  clean_srt_to_plain_text lib (a ++ String newline (l ++ String newline b))
  = clean_srt_to_plain_text lib (a ++ String newline b).
Proof.
  intros Hnl Hd. unfold clean_srt_to_plain_text.
  fold (plain_lines lib (a ++ String newline (l ++ String newline b))).
  fold (plain_lines lib (a ++ String newline b)).
  rewrite !plain_lines_app.
  now rewrite (plain_lines_discarded lib l Hnl Hd).
Qed.

Lemma X2_witness_timestamp_line :
  clean_srt_to_plain_text Ref.library
    ("Hello" ++ String newline
       ("00:00:02,000 --> 00:00:03,000" ++ String newline "world"))
  = clean_srt_to_plain_text Ref.library
      ("Hello" ++ String newline "world").
Proof.
  exact (X2_discarded_line_is_invisible Ref.library "Hello"
           "00:00:02,000 --> 00:00:03,000" "world" eq_refl eq_refl).
Defined.

(** X3. A text made of white space only (spaces, tabs, line breaks) is
    normalized to the empty string, whatever the entity decoder does. *)
Theorem X3_blank_text_normalizes_to_empty (lib : Library) (s : string) :
  Py.all_chars Py.isspace s = true ->
  clean_srt_to_plain_text lib s = EmptyString.
Proof.
  intros Hblank. rewrite clean_srt_unfold, normalize_spec_kept.
  replace (filter kept (map Py.strip (Py.split newline s))) with (@nil string);
    [reflexivity|].
  symmetry. apply (proj1 (List.length_zero_iff_nil _)).
  assert (Hall : forall l, In l (map Py.strip (Py.split newline s)) ->
                           kept l = false).
  { intros l Hl. apply in_map_iff in Hl as (l0 & <- & Hl0).
    apply split_part in Hl0 as [_ (x & y & Hs)].
    rewrite Hs, !all_chars_app in Hblank.
    apply andb_true_iff in Hblank as [_ Hblank].
    apply andb_true_iff in Hblank as [Hl0 _].
    unfold Py.strip. now rewrite (lstrip_blank l0 Hl0). }
  induction (map Py.strip (Py.split newline s)) as [|l ls IH];
    [reflexivity|].
  cbn [filter]. rewrite (Hall l (or_introl eq_refl)).
  apply IH. intros l' Hl'. apply Hall. now right.
Qed.

Lemma X3_witness_blank_lines :
  clean_srt_to_plain_text Ref.library
    ("   " ++ String newline (String (ascii_of_nat 9) " "))
  = EmptyString.
Proof.
  exact (X3_blank_text_normalizes_to_empty Ref.library
           ("   " ++ String newline (String (ascii_of_nat 9) " ")) eq_refl).
Defined.

(* ===================================================================== *)
(** * Further properties of the reply parsing *)
(* ===================================================================== *)

Lemma find_from_app (c : ascii) (pre rest : string) (z : Z) :
  occurs c pre = false ->
  Py.find_from c (pre ++ String c rest) z
  = (z + Z.of_nat (String.length pre))%Z.
Proof.
  revert z; induction pre as [|a pre IH]; intros z H; simpl in *.
  - rewrite Ascii.eqb_refl. lia.
  - apply orb_false_iff in H as [Ha Hp]. rewrite Ha, (IH _ Hp). lia.
Qed.

Lemma rfind_from_app (c : ascii) (s post : string) (z last : Z) :
  occurs c post = false ->
  Py.rfind_from c (s ++ String c post) z last
  = (z + Z.of_nat (String.length s))%Z.
Proof.
  revert z last; induction s as [|a s IH]; intros z last H; simpl.
  - rewrite Ascii.eqb_refl, (rfind_from_none _ _ _ _ H). lia.
  - rewrite (IH _ _ H). lia.
Qed.

Lemma string_length_app (a b : string) :
  String.length (a ++ b) = String.length a + String.length b.
Proof. induction a as [|x a IH]; simpl; [reflexivity|now rewrite IH]. Qed.

Lemma substring_skip (a s : string) (n : nat) :
  substring (String.length a) n (a ++ s) = substring 0 n s.
Proof. induction a as [|x a IH]; simpl; [reflexivity|exact IH]. Qed.

Lemma substring_take (x post : string) :
  substring 0 (String.length x) (x ++ post) = x.
Proof.
  induction x as [|c x IH]; simpl.
  - now destruct post.
  - now rewrite IH.
Qed.

(** The slice taken by [parse_reply] from a reply made of prose, a
    bracketed text and more prose. *)
Lemma bracketed_slice (pre mid post : string) :
  occurs "[" pre = false ->
  occurs "]" post = false ->
  let reply := pre ++ String "[" (mid ++ String "]" post) in
  Py.slice reply (Py.find "[" reply) (Py.rfind "]" reply + 1)
  = String "[" (mid ++ "]").
Proof.
  intros Hpre Hpost reply. subst reply.
  unfold Py.find. rewrite (find_from_app _ _ _ _ Hpre).
  unfold Py.rfind.
  replace (pre ++ String "[" (mid ++ String "]" post))
    with ((pre ++ String "[" mid) ++ String "]" post)
    by (now rewrite string_app_assoc).
  rewrite (rfind_from_app _ _ _ _ _ Hpost).
  rewrite string_length_app. cbn [String.length].
  replace (0 + Z.of_nat (String.length pre))%Z
    with (Z.of_nat (String.length pre)) by lia.
  replace (0 + Z.of_nat (String.length pre + S (String.length mid)))%Z
    with (Z.of_nat (String.length pre + S (String.length mid))) by lia.
  rewrite slice_between.
  - rewrite string_app_assoc.
    replace (String.length pre + S (String.length mid) + 1
             - String.length pre)
      with (String.length (String "[" (mid ++ "]")))
      by (cbn [String.length]; rewrite string_length_app; simpl; lia).
    rewrite substring_skip.
    replace (String "[" mid ++ String "]" post)
      with (String "[" (mid ++ "]") ++ post)
      by (simpl; now rewrite string_app_assoc).
    apply substring_take.
  - rewrite !string_length_app. simpl. lia.
  - rewrite !string_length_app. simpl. lia.
Qed.

(** X4. When the reply is prose without an opening bracket, then a
    bracketed text, then prose without a closing bracket, the parsing step
    hands exactly the bracketed text to the JSON decoder: the surrounding
    prose is dropped, and the outcome is the decoder's. *)
Theorem X4_surrounding_prose_is_dropped
    (lib : Library) (pre mid post : string) :
  occurs "[" pre = false ->
  occurs "]" post = false ->
  parse_reply lib (pre ++ String "[" (mid ++ String "]" post))
  = match json_loads lib (String "[" (mid ++ "]")) with
    | Ok quiz_data => Ok (QuizSuccess quiz_data)
    | Raise e => Raise e
    end.
Proof.
  intros Hpre Hpost.
  rewrite parse_reply_open.
  - now rewrite (bracketed_slice pre mid post Hpre Hpost).
  - rewrite contains_char, occurs_app. cbn [occurs].
    now rewrite Ascii.eqb_refl, orb_true_r.
Qed.

Lemma X4_witness_quiz_in_prose :
  parse_reply Ref.library
    ("Here is your quiz: " ++ String "[" ("1, 2" ++ String "]" " Enjoy!"))
  = Ok (QuizSuccess (JArray [JNumber "1"; JNumber "2"])).
Proof.
  exact (X4_surrounding_prose_is_dropped Ref.library
           "Here is your quiz: " "1, 2" " Enjoy!" eq_refl eq_refl).
Defined.

(** X5. A synthesizer returns a quiz only when the generative service
    answered, its reply text could be read and holds an opening bracket,
    and the JSON decoder accepted the slice between the first opening and
    the last closing bracket; the quiz is the decoder's value. *)
Theorem X5_quiz_only_from_decoded_slice
    (lib : Library) (svc : Services) (prompt : Prompt) (quiz : json) :
  value (synthesize lib svc prompt) = QuizSuccess quiz ->
  exists response reply,
    generate_content svc prompt = Ok response
    /\ text response = Ok reply
    /\ Py.contains "[" reply = true
    /\ json_loads lib
         (Py.slice reply (Py.find "[" reply) (Py.rfind "]" reply + 1))
       = Ok quiz.
Proof.
  unfold synthesize, call, bind, ret, value. cbn [fst].
  destruct (generate_content svc prompt) as [response|e]; [|discriminate].
  destruct (text response) as [reply|e] eqn:Htext;
    [|destruct e; discriminate].
  intros H. exists response, reply. repeat split; auto.
  - destruct (Py.contains "[" reply) eqn:Ho; [reflexivity|].
    rewrite (parse_reply_no_open lib reply Ho) in H. discriminate.
  - destruct (Py.contains "[" reply) eqn:Ho.
    + rewrite (parse_reply_open lib reply Ho) in H.
      destruct (json_loads lib (Py.slice _ _ _)) as [q|e];
        [now injection H as ->|destruct e; discriminate].
    + rewrite (parse_reply_no_open lib reply Ho) in H. discriminate.
Qed.

Lemma X5_witness_wrapped_quiz :
  exists response reply,
    generate_content (Demo.description_only Demo.good_reply)
      (DescriptionPrompt "A short talk about proofs." "Intro to proofs" 5)
    = Ok response
    /\ text response = Ok reply
    /\ Py.contains "[" reply = true
    /\ json_loads Ref.library
         (Py.slice reply (Py.find "[" reply) (Py.rfind "]" reply + 1))
       = Ok Demo.quiz.
Proof.
  exact (X5_quiz_only_from_decoded_slice Ref.library
           (Demo.description_only Demo.good_reply)
           (DescriptionPrompt "A short talk about proofs."
              "Intro to proofs" 5)
           Demo.quiz eq_refl).
Defined.

(* ===================================================================== *)
(** * Further properties of the URL parser *)
(* ===================================================================== *)

Lemma last_in {A} (l : list A) (d : A) : l <> [] -> In (last l d) l.
Proof.
  induction l as [|a [|b l] IH]; intros H; [contradiction|now left|].
  right. apply IH. discriminate.
Qed.

Lemma first_part_in (sep : ascii) (s : string) :
  In (Py.first_part (Py.split sep s)) (Py.split sep s).
Proof.
  pose proof (split_not_nil sep s).
  destruct (Py.split sep s); [contradiction|now left].
Qed.

Lemma last_part_in (sep : ascii) (s : string) :
  In (Py.last_part (Py.split sep s)) (Py.split sep s).
Proof. apply last_in, split_not_nil. Qed.

(** X6. The identifier taken from a URL that mentions the short-link host
    holds neither a slash nor a question mark. *)
Theorem X6_short_link_id_has_no_separator (lib : Library) (u : string) :
  Py.contains "youtu.be" u = true ->
  exists v,
    extract_video_id lib u = Ok v
    /\ occurs "/" v = false
    /\ occurs "?" v = false.
Proof.
  intros H. rewrite (extract_short_link lib u H). eexists. split; [reflexivity|].
  destruct (split_part _ _ _ (last_part_in "/" u)) as [Hslash _].
  destruct (split_part _ _ _
              (first_part_in "?" (Py.last_part (Py.split "/" u))))
    as [Hq (a & b & Hseg)].
  split; [|exact Hq].
  rewrite Hseg, !occurs_app in Hslash.
  apply orb_false_iff in Hslash as [_ Hslash].
  now apply orb_false_iff in Hslash as [Hslash _].
Qed.

Lemma X6_witness_short_link :
  exists v,
    extract_video_id Ref.library "https://youtu.be/abc123?t=5" = Ok v
    /\ occurs "/" v = false
    /\ occurs "?" v = false.
Proof.
  exact (X6_short_link_id_has_no_separator Ref.library
           "https://youtu.be/abc123?t=5" eq_refl).
Defined.

(** X7. A URL that mentions the short-link host and ends with a slash is
    accepted with the empty identifier: the parser does not check that the
    identifier it returns is non-empty. *)
Theorem X7_trailing_slash_gives_empty_id (lib : Library) (u : string) :
  Py.contains "youtu.be" u = true ->
  extract_video_id lib (u ++ "/") = Ok EmptyString.
Proof.
  intros H.
  assert (H' : Py.contains "youtu.be" (u ++ "/") = true)
    by (apply (contains_segment "youtu.be" EmptyString u "/" H)).
  rewrite (extract_short_link lib _ H').
  change (u ++ "/") with (u ++ String "/" EmptyString).
  rewrite split_app_sep. unfold Py.last_part.
  change (Py.split "/" EmptyString) with [EmptyString].
  rewrite last_last. reflexivity.
Qed.

Lemma X7_witness_trailing_slash :
  extract_video_id Ref.library ("https://youtu.be/abc123" ++ "/")
  = Ok EmptyString.
Proof.
  exact (X7_trailing_slash_gives_empty_id Ref.library
           "https://youtu.be/abc123" eq_refl).
Defined.

(* ===================================================================== *)
(** * Further properties of the metadata and transcript lookups *)
(* ===================================================================== *)

(** X8. The metadata lookup returns a failure exactly when the platform
    lists no item for the identifier or the call raises; when it succeeds,
    the title and description are those of the first listed item and the
    identifier is the one that was asked about. *)
Theorem X8_metadata_lookup_outcomes (svc : Services) (video_id : string) :
  ((exists message,
      value (get_video_info svc video_id) = VideoInfoError message)
   <-> (videos_list svc video_id = Ok []
        \/ exists e, videos_list svc video_id = Raise e))
  /\ (forall t d v,
        value (get_video_info svc video_id) = VideoInfoSuccess t d v ->
        v = video_id
        /\ exists item rest,
             videos_list svc video_id = Ok (item :: rest)
             /\ t = title item /\ d = description item).
Proof.
  split; [apply get_video_info_fails|].
  intros t d v H. split; [exact (get_video_info_id svc video_id t d v H)|].
  unfold get_video_info, call, bind, ret, value in H. cbn [fst] in H.
  destruct (videos_list svc video_id) as [[|item rest]|e].
  - discriminate.
  - injection H as <- <- _. now exists item, rest.
  - destruct e; discriminate.
Qed.

(** X9. A text returned by the transcript strategy is always the parts of
    one fetched track joined by single spaces, and that track is a listed
    track whose language is [en], [en-US] or [en-GB]: the strategy never
    returns the text of a track in another language, nor a translation. *)
Theorem X9_transcript_text_provenance
    (svc : Services) (video_id text : string) :
  value (get_video_transcript svc video_id) = TextSuccess text ->
  exists transcript_list t parts,
    list_transcripts svc video_id = Ok transcript_list
    /\ In t transcript_list
    /\ In (language_code t) ["en"; "en-US"; "en-GB"]
    /\ fetch t = Ok parts
    /\ text = Py.join " " parts.
Proof.
  intros H.
  destruct (list_transcripts svc video_id) as [tl|e] eqn:Hlist.
  2: { unfold get_video_transcript, call, bind, ret, value in H.
       cbn [fst] in H. rewrite Hlist in H. destruct e; discriminate. }
  rewrite (get_video_transcript_value svc video_id tl Hlist) in H.
  assert (Hfetch : forall t, fetched_text t = TextSuccess text ->
                     exists parts, fetch t = Ok parts
                                   /\ text = Py.join " " parts).
  { intros t Ht. unfold fetched_text in Ht.
    destruct (fetch t) as [parts|e]; [|destruct e; discriminate].
    injection Ht as <-. now exists parts. }
  unfold pick_transcript in H.
  destruct (find_transcript tl ["en"]) as [t|e1] eqn:E1.
  - destruct (Hfetch t H) as (parts & Hp & ->).
    apply find_transcript_sound in E1 as [Hin [Hc|[]]].
    exists tl, t, parts. repeat split; auto.
    rewrite <- Hc. now left.
  - destruct (find_transcript tl ["en-US"; "en-GB"]) as [t|e2] eqn:E2.
    + destruct (Hfetch t H) as (parts & Hp & ->).
      apply find_transcript_sound in E2 as [Hin Hc].
      exists tl, t, parts. repeat split; auto. now right.
    + discriminate.
Qed.

Lemma X9_witness_generated_english_track :
  exists transcript_list t parts,
    list_transcripts Demo.with_transcript Demo.video_id = Ok transcript_list
    /\ In t transcript_list
    /\ In (language_code t) ["en"; "en-US"; "en-GB"]
    /\ fetch t = Ok parts
    /\ "Hello there" = Py.join " " parts.
Proof.
  exact (X9_transcript_text_provenance Demo.with_transcript Demo.video_id
           "Hello there" eq_refl).
Defined.

(* ===================================================================== *)
(** * Further properties of the captions strategy *)
(* ===================================================================== *)

Lemma first_english_listed (tracks : list CaptionTrack) (cid : string) :
  first_english_caption tracks = Some cid -> In cid (map id tracks).
Proof.
  induction tracks as [|t tracks IH]; cbn [first_english_caption map];
    [discriminate|].
  destruct (existsb (String.eqb (language t)) english_codes).
  - intros H. injection H as H. now left.
  - intros H. right. now apply IH.
Qed.

Lemma first_english_app (pre post : list CaptionTrack) (t : CaptionTrack) :
  forallb (fun x => negb (is_english x)) pre = true ->
  is_english t = true ->
  first_english_caption (pre ++ t :: post)%list = Some (id t).
Proof.
  intros Hpre Ht. induction pre as [|x pre IH]; cbn [app first_english_caption].
  - unfold is_english in Ht. now rewrite Ht.
  - cbn [forallb] in Hpre. apply andb_true_iff in Hpre as [Hx Hpre].
    apply negb_true_iff in Hx. unfold is_english in Hx. rewrite Hx.
    now apply IH.
Qed.

Lemma first_english_none (tracks : list CaptionTrack) :
  forallb (fun x => negb (is_english x)) tracks = true ->
  first_english_caption tracks = None.
Proof.
  induction tracks as [|x tracks IH]; cbn [forallb first_english_caption];
    [reflexivity|].
  intros H. apply andb_true_iff in H as [Hx H].
  apply negb_true_iff in Hx. unfold is_english in Hx. rewrite Hx.
  now apply IH.
Qed.

(** The four ways a run of the captions strategy can go. *)
Lemma captions_cases (lib : Library) (svc : Services) (video_id : string) :
  (exists e,
     captions_list svc video_id = Raise e
     /\ get_captions_from_youtube_api lib svc video_id
        = (captions_handler e, [CaptionsList video_id]))
  \/ (captions_list svc video_id = Ok []
      /\ get_captions_from_youtube_api lib svc video_id
         = (Ok (TextError "No captions available for this video"),
            [CaptionsList video_id]))
  \/ (exists first rest,
        captions_list svc video_id = Ok (first :: rest)
        /\ caption_id_truthy (first_english_caption (first :: rest)) = false
        /\ id first = EmptyString
        /\ get_captions_from_youtube_api lib svc video_id
           = (Ok (TextError "No usable captions found"),
              [CaptionsList video_id]))
  \/ (exists first rest cid,
        captions_list svc video_id = Ok (first :: rest)
        /\ Py.truthy cid = true
        /\ cid = (if caption_id_truthy (first_english_caption (first :: rest))
                  then match first_english_caption (first :: rest) with
                       | Some c => c
                       | None => id first
                       end
                  else id first)
        /\ get_captions_from_youtube_api lib svc video_id
           = (download_outcome lib svc cid,
              [CaptionsList video_id; CaptionsDownload cid])).
Proof.
  unfold get_captions_from_youtube_api, call, bind, ret, download_outcome.
  destruct (captions_list svc video_id) as [[|first rest]|e].
  - right. left. now split.
  - right. right.
    destruct (first_english_caption (first :: rest)) as [c|] eqn:Hc;
      cbn [caption_id_truthy].
    + destruct (Py.truthy c) eqn:Htc.
      * right. exists first, rest, c.
        rewrite ?Hc; cbn [caption_id_truthy]; rewrite ?Htc.
        repeat split; auto.
        destruct (captions_download svc c); reflexivity.
      * destruct (Py.truthy (id first)) eqn:Htf.
        -- right. exists first, rest, (id first).
           rewrite ?Hc; cbn [caption_id_truthy]; rewrite ?Htc, ?Htf.
           repeat split; auto.
           destruct (captions_download svc (id first)); reflexivity.
        -- left. exists first, rest.
           rewrite ?Hc; cbn [caption_id_truthy]; rewrite ?Htc, ?Htf.
           repeat split; auto.
           now destruct (id first).
    + destruct (Py.truthy (id first)) eqn:Htf.
      * right. exists first, rest, (id first).
        rewrite ?Hc; cbn [caption_id_truthy]; rewrite ?Htf.
        repeat split; auto.
        destruct (captions_download svc (id first)); reflexivity.
      * left. exists first, rest.
        rewrite ?Hc; cbn [caption_id_truthy]; rewrite ?Htf.
        repeat split; auto.
        now destruct (id first).
  - left. exists e. now split.
Qed.

Lemma captions_handler_not_success (e : exn) (text : string) :
  captions_handler e <> Ok (TextSuccess text).
Proof.
  destruct e as [m|m|m|m|m|m [r|e']|m]; simpl; try discriminate.
  destruct (String.eqb r "forbidden"); discriminate.
Qed.

Lemma captions_handler_raises (e e' : exn) :
  captions_handler e = Raise e' <-> exists m, e = HttpError m (inr e').
Proof.
  split.
  - destruct e as [m|m|m|m|m|m [r|e'']|m]; simpl; try discriminate.
    + destruct (String.eqb r "forbidden"); discriminate.
    + intros [= ->]. now exists m.
  - intros [m ->]. reflexivity.
Qed.

(** X10. The captions strategy downloads at most one track, after listing the
    tracks, and only a track that was listed and has a non-empty
    identifier. *)
Theorem X10_download_only_a_listed_track
    (lib : Library) (svc : Services) (video_id : string) :
  let run := get_captions_from_youtube_api lib svc video_id in
  trace run = [CaptionsList video_id]
  \/ exists tracks cid,
       captions_list svc video_id = Ok tracks
       /\ In cid (map id tracks)
       /\ Py.truthy cid = true
       /\ trace run = [CaptionsList video_id; CaptionsDownload cid].
Proof.
  intros run. subst run.
  destruct (captions_cases lib svc video_id)
    as [(e & _ & ->)|[[_ ->]|[(f & r & _ & _ & _ & ->)
                              |(f & r & cid & Hl & Ht & Hc & ->)]]];
    try (now left).
  right. exists (f :: r), cid. repeat split; auto.
  rewrite Hc.
  destruct (first_english_caption (f :: r)) as [c|] eqn:E;
    cbn [caption_id_truthy].
  - destruct (Py.truthy c); [now apply first_english_listed|now left].
  - now left.
Qed.

(** X11. When the first listed track with a preferred language code has a
    non-empty identifier, that track is the one downloaded, whatever comes
    before or after it in the list. *)
Theorem X11_first_english_track_is_downloaded
    (lib : Library) (svc : Services) (video_id : string)
    (pre post : list CaptionTrack) (t : CaptionTrack) :
  captions_list svc video_id = Ok (pre ++ t :: post)%list ->
  forallb (fun x => negb (is_english x)) pre = true ->
  is_english t = true ->
  Py.truthy (id t) = true ->
  get_captions_from_youtube_api lib svc video_id
  = (download_outcome lib svc (id t),
     [CaptionsList video_id; CaptionsDownload (id t)]).
Proof.
  intros Hlist Hpre Ht Hid.
  pose proof (first_english_app pre post t Hpre Ht) as Hfirst.
  destruct (captions_cases lib svc video_id)
    as [(e & He & _)|[[He _]|[(f & r & Hl & Hc & _)
                              |(f & r & cid & Hl & _ & Hc & ->)]]];
    rewrite Hlist in *; try discriminate.
  - destruct pre; discriminate.
  - injection Hl as Hl. rewrite <- Hl, Hfirst in Hc.
    cbn [caption_id_truthy] in Hc. congruence.
  - injection Hl as Hl. rewrite <- Hl, Hfirst in Hc.
    cbn [caption_id_truthy] in Hc. rewrite Hid in Hc. now subst cid.
Qed.

Lemma X11_witness_english_after_french :
  get_captions_from_youtube_api Ref.library
    (Sample.with_captions Sample.caption_tracks) Demo.video_id
  = (download_outcome Ref.library
       (Sample.with_captions Sample.caption_tracks) "cap-en",
     [CaptionsList Demo.video_id; CaptionsDownload "cap-en"]).
Proof.
  exact (X11_first_english_track_is_downloaded Ref.library
           (Sample.with_captions Sample.caption_tracks) Demo.video_id
           [{| id := "cap-fr"; language := "fr" |}]
           [{| id := "cap-gb"; language := "en-GB" |}]
           {| id := "cap-en"; language := "en" |}
           eq_refl eq_refl eq_refl eq_refl).
Defined.

(** X12. When no listed track has a preferred language code, the first
    listed track is downloaded if its identifier is non-empty; otherwise
    the strategy fails with "No usable captions found" without downloading
    anything. *)
Theorem X12_no_english_track_falls_back_to_first
    (lib : Library) (svc : Services) (video_id : string)
    (first : CaptionTrack) (rest : list CaptionTrack) :
  captions_list svc video_id = Ok (first :: rest) ->
  forallb (fun x => negb (is_english x)) (first :: rest) = true ->
  get_captions_from_youtube_api lib svc video_id
  = if Py.truthy (id first)
    then (download_outcome lib svc (id first),
          [CaptionsList video_id; CaptionsDownload (id first)])
    else (Ok (TextError "No usable captions found"),
          [CaptionsList video_id]).
Proof.
  intros Hlist Hnone.
  pose proof (first_english_none _ Hnone) as Hfirst.
  destruct (captions_cases lib svc video_id)
    as [(e & He & _)|[[He _]|[(f & r & Hl & Hc & Hid & ->)
                              |(f & r & cid & Hl & Ht & Hc & ->)]]];
    rewrite Hlist in *; try discriminate.
  - injection Hl as <- <-. now rewrite Hid.
  - injection Hl as <- <-. rewrite Hfirst in Hc.
    cbn [caption_id_truthy] in Hc. subst cid. now rewrite Ht.
Qed.

Lemma X12_witness_foreign_tracks :
  get_captions_from_youtube_api Ref.library
    (Sample.with_captions Sample.foreign_tracks) Demo.video_id
  = (download_outcome Ref.library
       (Sample.with_captions Sample.foreign_tracks) "cap-fr",
     [CaptionsList Demo.video_id; CaptionsDownload "cap-fr"]).
Proof.
  exact (X12_no_english_track_falls_back_to_first Ref.library
           (Sample.with_captions Sample.foreign_tracks) Demo.video_id
           {| id := "cap-fr"; language := "fr" |}
           [{| id := "cap-de"; language := "de" |}]
           eq_refl eq_refl).
Defined.

(** X13. When the first listed track with a preferred language code has an
    empty identifier, the strategy behaves as if no preferred track were
    listed: it downloads the first listed track (if that one has an
    identifier), and never a later track with a preferred code. *)
Theorem X13_unnamed_english_track_hides_later_ones
    (lib : Library) (svc : Services) (video_id : string)
    (pre post : list CaptionTrack) (t first : CaptionTrack)
    (rest : list CaptionTrack) :
  captions_list svc video_id = Ok (pre ++ t :: post)%list ->
  (pre ++ t :: post)%list = first :: rest ->
  forallb (fun x => negb (is_english x)) pre = true ->
  is_english t = true ->
  id t = EmptyString ->
  get_captions_from_youtube_api lib svc video_id
  = if Py.truthy (id first)
    then (download_outcome lib svc (id first),
          [CaptionsList video_id; CaptionsDownload (id first)])
    else (Ok (TextError "No usable captions found"),
          [CaptionsList video_id]).
Proof.
  intros Hlist Hshape Hpre Ht Hid.
  pose proof (first_english_app pre post t Hpre Ht) as Hfirst.
  rewrite Hshape in Hlist, Hfirst. rewrite Hid in Hfirst.
  destruct (captions_cases lib svc video_id)
    as [(e & He & _)|[[He _]|[(f & r & Hl & Hc & Hidf & ->)
                              |(f & r & cid & Hl & Htc & Hc & ->)]]];
    rewrite Hlist in *; try discriminate.
  - injection Hl as <- <-. now rewrite Hidf.
  - injection Hl as <- <-. rewrite Hfirst in Hc.
    cbn [caption_id_truthy Py.truthy] in Hc. subst cid. now rewrite Htc.
Qed.

Lemma X13_witness_unnamed_english :
  get_captions_from_youtube_api Ref.library
    (Sample.with_captions Sample.unnamed_english) Demo.video_id
  = (download_outcome Ref.library
       (Sample.with_captions Sample.unnamed_english) "cap-fr",
     [CaptionsList Demo.video_id; CaptionsDownload "cap-fr"]).
Proof.
  exact (X13_unnamed_english_track_hides_later_ones Ref.library
           (Sample.with_captions Sample.unnamed_english) Demo.video_id
           [{| id := "cap-fr"; language := "fr" |}]
           [{| id := "cap-gb"; language := "en-GB" |}]
           {| id := EmptyString; language := "en" |}
           {| id := "cap-fr"; language := "fr" |}
           [{| id := EmptyString; language := "en" |};
            {| id := "cap-gb"; language := "en-GB" |}]
           eq_refl eq_refl eq_refl eq_refl eq_refl).
Defined.

(** X14. The captions strategy raises instead of returning only in one
    situation: the listing or the download failed with an [HttpError] and
    reading the reason out of that error's content raised; the exception
    that leaves the function is the one raised while reading. *)
Theorem X14_captions_raise_only_from_the_error_handler
    (lib : Library) (svc : Services) (video_id : string) (e' : exn) :
  value (get_captions_from_youtube_api lib svc video_id) = Raise e'
  <-> ((exists m, captions_list svc video_id = Raise (HttpError m (inr e')))
       \/ exists cid m,
            In (CaptionsDownload cid)
               (trace (get_captions_from_youtube_api lib svc video_id))
            /\ captions_download svc cid = Raise (HttpError m (inr e'))).
Proof.
  destruct (captions_cases lib svc video_id)
    as [(e & He & ->)|[[He ->]|[(f & r & Hl & _ & _ & ->)
                                |(f & r & cid & Hl & _ & _ & ->)]]];
    cbn [value trace fst snd]; split.
  - intros H. apply captions_handler_raises in H as [m ->]. left. now exists m.
  - intros [[m H]|(cid & m & [[=]|[]] & _)].
    rewrite He in H. injection H as ->. now apply captions_handler_raises; exists m.
  - discriminate.
  - intros [[m H]|(cid & m & [[=]|[]] & _)]. congruence.
  - discriminate.
  - intros [[m H]|(cid & m & [[=]|[]] & _)]. congruence.
  - unfold download_outcome. intros H. right.
    destruct (captions_download svc cid) as [txt|e] eqn:Hd; [discriminate|].
    apply captions_handler_raises in H as [m ->].
    exists cid, m. split; [right; now left|exact Hd].
  - intros [[m H]|(cid' & m & [[=]|[[= <-]|[]]] & Hd)]; [congruence|].
    unfold download_outcome. rewrite Hd. reflexivity.
Qed.

(** X15. A text returned by the captions strategy is always the normalized
    form of a subtitle file that was downloaded in the same run. *)
Theorem X15_captions_text_is_a_normalized_download
    (lib : Library) (svc : Services) (video_id text : string) :
  value (get_captions_from_youtube_api lib svc video_id)
  = Ok (TextSuccess text) ->
  exists cid caption_text,
    In (CaptionsDownload cid)
       (trace (get_captions_from_youtube_api lib svc video_id))
    /\ captions_download svc cid = Ok caption_text
    /\ text = clean_srt_to_plain_text lib caption_text.
Proof.
  destruct (captions_cases lib svc video_id)
    as [(e & He & ->)|[[He ->]|[(f & r & Hl & _ & _ & ->)
                                |(f & r & cid & Hl & _ & _ & ->)]]];
    cbn [value trace fst snd]; intros H; try discriminate.
  - now apply captions_handler_not_success in H.
  - unfold download_outcome in H.
    destruct (captions_download svc cid) as [txt|e] eqn:Hd.
    + injection H as <-. exists cid, txt. repeat split; auto.
      right. now left.
    + now apply captions_handler_not_success in H.
Qed.

Lemma X15_witness_downloaded_captions :
  exists cid caption_text,
    In (CaptionsDownload cid)
       (trace (get_captions_from_youtube_api Ref.library Demo.captions_only
                 Demo.video_id))
    /\ captions_download Demo.captions_only cid = Ok caption_text
    /\ "Hello big world" = clean_srt_to_plain_text Ref.library caption_text.
Proof.
  exact (X15_captions_text_is_a_normalized_download Ref.library
           Demo.captions_only Demo.video_id "Hello big world" eq_refl).
Defined.

(* ===================================================================== *)
(** * Further properties of the route *)
(* ===================================================================== *)

Lemma captions_trace_shape (lib : Library) (svc : Services)
    (video_id : string) :
  trace (get_captions_from_youtube_api lib svc video_id)
  = [CaptionsList video_id]
  \/ exists cid,
       trace (get_captions_from_youtube_api lib svc video_id)
       = [CaptionsList video_id; CaptionsDownload cid].
Proof.
  destruct (captions_cases lib svc video_id)
    as [(e & _ & ->)|[[_ ->]|[(f & r & _ & _ & _ & ->)
                              |(f & r & cid & _ & _ & _ & ->)]]];
    try (now left).
  right. now exists cid.
Qed.

(** The run of a request that is refused before any lookup. *)
Lemma process_rejected (lib : Library) (svc : Services) (req : Request) :
  (youtube_url req = None \/ youtube_url req = Some EmptyString ->
   process_youtube_video lib svc req
   = ((ErrorBody "YouTube URL is required", 400%Z), []))
  /\ (forall url e,
        youtube_url req = Some url -> Py.truthy url = true ->
        extract_video_id lib url = Raise e ->
        process_youtube_video lib svc req = (request_handler e, [])).
Proof.
  unfold process_youtube_video. split.
  - intros [->| ->]; reflexivity.
  - intros url e -> Ht ->. now rewrite Ht.
Qed.

Lemma request_handler_status (e : exn) :
  request_handler e = (ErrorBody (str e), 400%Z)
  \/ request_handler e = (ErrorBody (str e), 500%Z).
Proof. unfold request_handler. destruct (is_ValueError e); auto. Qed.

(** Once the body has been read, a request makes no outbound call exactly
    when its URL is missing or empty, or the URL parser refuses it. *)
Lemma process_no_call_iff
    (lib : Library) (svc : Services) (req : Request) :
  trace (process_youtube_video lib svc req) = []
  <-> (youtube_url req = None
       \/ youtube_url req = Some EmptyString
       \/ exists url e,
            youtube_url req = Some url
            /\ extract_video_id lib url = Raise e).
Proof.
  destruct (process_rejected lib svc req) as [Hmissing Hraise].
  destruct (youtube_url req) as [url|] eqn:Hurl.
  2: { rewrite (Hmissing (or_introl eq_refl)). split; auto. }
  destruct (Py.truthy url) eqn:Ht.
  2: { destruct url; [|discriminate].
       rewrite (Hmissing (or_intror eq_refl)). split; auto. }
  destruct (extract_video_id lib url) as [video_id|e] eqn:Hid.
  2: { rewrite (Hraise url e eq_refl Ht Hid). split; [|reflexivity].
       intros _. right. right. now exists url, e. }
  split.
  - intros H. exfalso.
    destruct (value (get_video_info svc video_id)) as [m|t d v] eqn:Hinfo.
    + rewrite (process_hard_stop lib svc req url video_id m Hurl Hid Hinfo)
        in H. discriminate.
    + rewrite (process_run lib svc req url video_id t d v Hurl Hid Hinfo)
        in H.
      destruct (value (get_video_transcript svc video_id));
        [|discriminate].
      destruct (value (get_captions_from_youtube_api lib svc video_id))
        as [[?|?]|?]; discriminate.
  - intros [H|[H|(u & e & H & He)]]; try discriminate.
    + injection H as ->. discriminate.
    + injection H as <-. congruence.
Qed.

(** Once the body has been read, the response is either a quiz with status
    200 or an error message with status 400 or 500. *)
Lemma process_status_matches_body
    (lib : Library) (svc : Services) (req : Request) :
  match value (process_youtube_video lib svc req) with
  | (QuizBody _ _ content_source, status) =>
      status = 200%Z
      /\ (content_source = "transcript" \/ content_source = "description")
  | (ErrorBody _, status) => status = 400%Z \/ status = 500%Z
  end.
Proof.
  destruct (process_rejected lib svc req) as [Hmissing Hraise].
  destruct (youtube_url req) as [url|] eqn:Hurl.
  2: { rewrite (Hmissing (or_introl eq_refl)). now left. }
  destruct (Py.truthy url) eqn:Ht.
  2: { destruct url; [|discriminate].
       rewrite (Hmissing (or_intror eq_refl)). now left. }
  destruct (extract_video_id lib url) as [video_id|e] eqn:Hid.
  2: { rewrite (Hraise url e eq_refl Ht Hid). cbn [value fst].
       destruct (request_handler_status e) as [-> | ->]; auto. }
  destruct (value (get_video_info svc video_id)) as [m|t d v] eqn:Hinfo.
  1: { rewrite (process_hard_stop lib svc req url video_id m Hurl Hid Hinfo).
       now right. }
  rewrite (process_run lib svc req url video_id t d v Hurl Hid Hinfo).
  destruct (value (get_video_transcript svc video_id)) as [m1|text].
  - destruct (value (get_captions_from_youtube_api lib svc video_id))
      as [[m2|text]|e]; cbn [value fst]; unfold respond.
    + destruct (value (generate_quiz_from_description _ _ _ _ _)); auto.
    + destruct (value (generate_quiz _ _ _ _ _)); auto.
    + destruct (request_handler_status e) as [-> | ->]; auto.
  - cbn [value fst]. unfold respond.
    destruct (value (generate_quiz _ _ _ _ _)); auto.
Qed.

Lemma route_run (lib : Library) (svc : Services) (data : Payload) (n : Z) :
  count_value data = Ok n ->
  generate_quiz_route lib svc (Ok data)
  = (Ok (value (process_youtube_video lib svc
                  {| youtube_url := url_value data; num_questions := n |})),
     trace (process_youtube_video lib svc
              {| youtube_url := url_value data; num_questions := n |})).
Proof.
  intros Hn. unfold generate_quiz_route. rewrite Hn.
  destruct (process_youtube_video lib svc _) as [r tr].
  unfold bind, ret, value, trace. cbn [fst snd]. now rewrite app_nil_r.
Qed.

(** X16. For a request whose [youtube_url] is absent or a string: no
    outbound call at all is made exactly when the body cannot be read, the
    question count is refused by [int], the URL is missing or empty, or the
    URL parser raises on it. *)
Theorem X16_no_call_iff_request_refused
    (lib : Library) (svc : Services) (body : result Payload) :
  trace (generate_quiz_route lib svc body) = []
  <-> ((exists e, body = Raise e)
       \/ exists data,
            body = Ok data
            /\ ((exists e, count_value data = Raise e)
                \/ url_value data = None
                \/ url_value data = Some EmptyString
                \/ exists url e,
                     url_value data = Some url
                     /\ extract_video_id lib url = Raise e)).
Proof.
  destruct body as [data|e0].
  2: { split; [intros _; left; now exists e0|reflexivity]. }
  destruct (count_value data) as [n|e1] eqn:Hn.
  2: { unfold generate_quiz_route. rewrite Hn. split; [|reflexivity].
       intros _. right. exists data. split; [reflexivity|].
       left. now exists e1. }
  rewrite (route_run lib svc data n Hn). cbn [trace snd].
  rewrite process_no_call_iff. cbn [youtube_url]. split.
  - intros H. right. exists data. split; [reflexivity|]. now right.
  - intros [[e H]|(data' & [= <-] & [[e H]|H])]; [discriminate|congruence|].
    exact H.
Qed.

(** X17. For a request whose [youtube_url] is absent or a string, the route
    ends in one of three ways: an exception raised while the body is read
    or the question count converted leaves the function before any response
    is built; or the response is a quiz with status 200 and content source
    ["transcript"] or ["description"]; or it is an error message with status
    400 or 500.  No quiz comes with an error status, no error with 200. *)
Theorem X17_route_outcomes
    (lib : Library) (svc : Services) (body : result Payload) :
  match value (generate_quiz_route lib svc body) with
  | Raise e =>
      body = Raise e
      \/ exists data, body = Ok data /\ count_value data = Raise e
  | Ok (QuizBody _ _ content_source, status) =>
      status = 200%Z
      /\ (content_source = "transcript" \/ content_source = "description")
  | Ok (ErrorBody _, status) => status = 400%Z \/ status = 500%Z
  end.
Proof.
  destruct body as [data|e0]; [|now left].
  destruct (count_value data) as [n|e1] eqn:Hn.
  2: { unfold generate_quiz_route. rewrite Hn. right. now exists data. }
  rewrite (route_run lib svc data n Hn). cbn [value fst].
  apply process_status_matches_body.
Qed.

(** X18. Among the calls that the route makes to the metadata API, the
    transcript listing, the captions API and the generative service, the
    metadata lookup is the first call of every request that makes any, and
    the generative service is called at most once and only as the last
    call. *)
Theorem X18_call_sequence_shape
    (lib : Library) (svc : Services) (req : Request) :
  let calls := trace (process_youtube_video lib svc req) in
  (calls = [] \/ exists video_id rest, calls = VideosList video_id :: rest)
  /\ existsb is_generate_call (removelast calls) = false.
Proof.
  intros calls. subst calls.
  destruct (process_rejected lib svc req) as [Hmissing Hraise].
  destruct (youtube_url req) as [url|] eqn:Hurl.
  2: { rewrite (Hmissing (or_introl eq_refl)). cbn. auto. }
  destruct (Py.truthy url) eqn:Ht.
  2: { destruct url; [|discriminate].
       rewrite (Hmissing (or_intror eq_refl)). cbn. auto. }
  destruct (extract_video_id lib url) as [video_id|e] eqn:Hid.
  2: { rewrite (Hraise url e eq_refl Ht Hid). cbn. auto. }
  destruct (value (get_video_info svc video_id)) as [m|t d v] eqn:Hinfo.
  1: { rewrite (process_hard_stop lib svc req url video_id m Hurl Hid Hinfo).
       cbn. split; [right; eauto|reflexivity]. }
  rewrite (process_run lib svc req url video_id t d v Hurl Hid Hinfo).
  destruct (value (get_video_transcript svc video_id)) as [m1|text].
  - destruct (captions_trace_shape lib svc video_id) as [Hc|[cid Hc]];
      destruct (value (get_captions_from_youtube_api lib svc video_id))
        as [[m2|text]|e]; cbn [trace snd]; rewrite Hc; cbn;
      (split; [right; eauto|reflexivity]).
  - cbn. split; [right; eauto|reflexivity].
Qed.

(** X19. When the transcript lookup has failed and the captions listing
    fails with an [HttpError] whose content cannot be read as JSON, the
    decoding error leaves the captions strategy and, being a [ValueError],
    is answered by the route with status 400 (the status of a malformed
    URL); the description fallback is not tried and the generative service
    is not called. *)
Theorem X19_unreadable_captions_error_is_a_client_error
    (lib : Library) (svc : Services) (req : Request)
    (url video_id t d v m1 m : string) (e : exn) :
  youtube_url req = Some url ->
  extract_video_id lib url = Ok video_id ->
  value (get_video_info svc video_id) = VideoInfoSuccess t d v ->
  value (get_video_transcript svc video_id) = TextError m1 ->
  captions_list svc video_id = Raise (HttpError m (inr e)) ->
  is_ValueError e = true ->
  process_youtube_video lib svc req
  = ((ErrorBody (str e), 400%Z),
     [VideosList video_id; ListTranscripts video_id; CaptionsList video_id]).
Proof.
  intros Hurl Hid Hinfo Htr Hcap He.
  rewrite (process_run lib svc req url video_id t d v Hurl Hid Hinfo), Htr.
  unfold get_captions_from_youtube_api, call, bind, ret.
  rewrite Hcap. cbn [value trace fst snd captions_handler app].
  unfold request_handler. now rewrite He.
Qed.

Lemma X19_witness_bad_gateway :
  process_youtube_video Ref.library Sample.captions_unreadable Demo.request
  = ((ErrorBody "Expecting value: line 1 column 1 (char 0)", 400%Z),
     [VideosList Demo.video_id; ListTranscripts Demo.video_id;
      CaptionsList Demo.video_id]).
Proof.
  exact (X19_unreadable_captions_error_is_a_client_error Ref.library
           Sample.captions_unreadable Demo.request Demo.url Demo.video_id
           "Intro to proofs" "A short talk about proofs." Demo.video_id
           no_transcript_message "HttpError 502: Bad Gateway"
           (JSONDecodeError "Expecting value: line 1 column 1 (char 0)")
           eq_refl eq_refl eq_refl eq_refl eq_refl eq_refl).
Defined.



(** X21. When the transcript lookup fails and the captions strategy returns
    a text, that text is the normalized form of the subtitle file it
    downloaded, it is the text sent to the generative service, the calls of
    the request end with the captions listing, that download and the
    generative call, and the response is the one built from the
    synthesizer's result with content source ["transcript"]. *)
Theorem X21_captions_path_end_to_end
    (lib : Library) (svc : Services) (req : Request)
    (url video_id t d v m1 text : string) :
  youtube_url req = Some url ->
  extract_video_id lib url = Ok video_id ->
  value (get_video_info svc video_id) = VideoInfoSuccess t d v ->
  value (get_video_transcript svc video_id) = TextError m1 ->
  value (get_captions_from_youtube_api lib svc video_id)
  = Ok (TextSuccess text) ->
  exists cid caption_text earlier,
    captions_download svc cid = Ok caption_text
    /\ text = clean_srt_to_plain_text lib caption_text
    /\ value (process_youtube_video lib svc req)
       = respond t "transcript"
           (value (generate_quiz lib svc text t (num_questions req)))
    /\ trace (process_youtube_video lib svc req)
       = (earlier
          ++ [CaptionsList video_id; CaptionsDownload cid;
              GenerateContent
                (TranscriptPrompt text t (num_questions req))])%list.
Proof.
  intros Hurl Hid Hinfo Htr Hcap.
  rewrite (process_run lib svc req url video_id t d v Hurl Hid Hinfo), Htr.
  destruct (captions_cases lib svc video_id)
    as [(e & He & Hrun)|[[He Hrun]|[(f & r & Hl & _ & _ & Hrun)
                                    |(f & r & cid & Hl & _ & _ & Hrun)]]];
    rewrite Hrun in *; cbn [value trace fst snd] in *; try discriminate.
  - now apply captions_handler_not_success in Hcap.
  - unfold download_outcome in *.
    destruct (captions_download svc cid) as [txt|e] eqn:Hd.
    + injection Hcap as <-.
      exists cid, txt, [VideosList video_id; ListTranscripts video_id].
      repeat split; auto.
    + now apply captions_handler_not_success in Hcap.
Qed.

Lemma X21_witness_captions_request :
  exists cid caption_text earlier,
    captions_download Demo.captions_only cid = Ok caption_text
    /\ "Hello big world" = clean_srt_to_plain_text Ref.library caption_text
    /\ value (process_youtube_video Ref.library Demo.captions_only
                Demo.request)
       = respond "Intro to proofs" "transcript"
           (value (generate_quiz Ref.library Demo.captions_only
                     "Hello big world" "Intro to proofs"
                     (num_questions Demo.request)))
    /\ trace (process_youtube_video Ref.library Demo.captions_only
                Demo.request)
       = (earlier
          ++ [CaptionsList Demo.video_id; CaptionsDownload cid;
              GenerateContent
                (TranscriptPrompt "Hello big world" "Intro to proofs"
                   (num_questions Demo.request))])%list.
Proof.
  exact (X21_captions_path_end_to_end Ref.library Demo.captions_only
           Demo.request Demo.url Demo.video_id
           "Intro to proofs" "A short talk about proofs." Demo.video_id
           no_transcript_message "Hello big world"
           eq_refl eq_refl eq_refl eq_refl eq_refl).
Defined.
